(** * Oscar crawler: crawl orchestration and job tracking

    A shallow embedding of

    - [src/app/crawler-api/main.py]: the AJAX ("direct") strategy
      ([fetch_year], [crawl_oscar_films]) and the job tracker
      ([trigger_oscar_crawl], [_run_crawl_job]);
    - [src/app/crawler-oscar/selenium_crawler.py]: the Selenium ("browser")
      strategy ([_discover_years_and_first_page], [_fetch_year_selenium],
      [crawl_oscar_films_selenium]).

    Python exceptions are values of [exn]; a call that may raise returns an
    [outcome].  The network and the browser are worlds the functions read
    from; what a function does to the outside (requests, sleeps, browser
    sessions) is returned next to its result as a log of events. *)

From Stdlib Require Import ZArith QArith DecimalString.
From stdpp Require Import gmap strings list pretty.

Open Scope Z_scope.

(** ** Python values and control *)

Module Py.

(** The exception classes the crawler meets.  [RequestError] stands for
    [httpx.RequestError] and its subclasses (connection errors, timeouts);
    [OtherError] for any further subclass of [Exception], by class name. *)
Inductive exn : Type :=
| RequestError (detail : string)
| HTTPStatusError (status : Z)
| JSONDecodeError
| ValidationError
| TypeError
| RuntimeError (message : string)
| TimeoutException
| OtherError (class_name : string).

(** Result of evaluating a Python expression: a value, or a raised exception. *)
Inductive outcome (A : Type) : Type :=
| Returned (a : A)
| Raised (e : exn).
Arguments Returned {A} a.
Arguments Raised {A} e.

#[export] Instance outcome_ret : MRet outcome := fun _ a => Returned a.
#[export] Instance outcome_bind : MBind outcome := fun _ _ f m =>
  match m with
  | Returned a => f a
  | Raised e => Raised e
  end.

Definition is_raised {A} (o : outcome A) : bool :=
  match o with Raised _ => true | Returned _ => false end.

(** [range(a, b)] *)
Definition range (a b : Z) : list Z :=
  (fun i => a + Z.of_nat i) <$> seq 0 (Z.to_nat (b - a)).

(** [str(n)] for an [int]. *)
Definition str (n : Z) : string := pretty n.

(** [sep.join(parts)] *)
Fixpoint join (sep : string) (parts : list string) : string :=
  match parts with
  | [] => ""
  | [p] => p
  | p :: rest => p +:+ sep +:+ join sep rest
  end.

(** [s] occurs in [msg]. *)
Definition mentions (msg s : string) : Prop :=
  exists pre post, msg = pre +:+ s +:+ post.

(** *** [asyncio.gather]

    The children have been started; they finish in some order, and the
    callback below runs once per finished child.  [outs] holds what each
    child evaluates to, by position; [order] lists the positions in the
    order the children finish.  The awaiting caller resumes when the outer
    future is set. *)
Section Gather.
Context {A : Type}.

Record gather_state : Type := {
  futs : list (option (outcome A));
  nfinished : nat;
  outer : option (outcome (list (outcome A)));
}.

(** [fut.exception()] or else [fut.result()], as one value. *)
Definition child_result (fut : option (outcome A)) : outcome A :=
  default (Raised (OtherError "InvalidStateError")) fut.

Definition done_callback (return_exceptions : bool) (outs : list (outcome A))
    (st : gather_state) (i : nat) : gather_state :=
  match outs !! i with
  | None => st
  | Some o =>
      let futs' := <[i := Some o]> (futs st) in
      let n := S (nfinished st) in
      match outer st with
      | Some r => {| futs := futs'; nfinished := n; outer := Some r |}
      | None =>
          match return_exceptions, o with
          | false, Raised exc =>
              {| futs := futs'; nfinished := n; outer := Some (Raised exc) |}
          | _, _ =>
              if (n =? length outs)%nat
              then {| futs := futs'; nfinished := n;
                      outer := Some (Returned (child_result <$> futs')) |}
              else {| futs := futs'; nfinished := n; outer := None |}
          end
      end
  end.

Definition gather_init (outs : list (outcome A)) : gather_state :=
  {| futs := replicate (length outs) None; nfinished := 0; outer := None |}.

(** [await asyncio.gather] over the children with [return_exceptions]; [None] when the
    outer future is never set. *)
Definition gather (return_exceptions : bool) (outs : list (outcome A))
    (order : list nat) : option (outcome (list (outcome A))) :=
  match outs with
  | [] => Some (Returned [])
  | _ => outer (foldl (done_callback return_exceptions outs) (gather_init outs) order)
  end.

(** The exception of the child that fails first, in the order of finishing. *)
Fixpoint first_raised (outs : list (outcome A)) (order : list nat) : option exn :=
  match order with
  | [] => None
  | i :: rest =>
      match outs !! i with
      | Some (Raised e) => Some e
      | _ => first_raised outs rest
      end
  end.

(** The child futures after the children in [rest] have finished. *)
Definition fill (outs : list (outcome A)) (fs : list (option (outcome A))) (rest : list nat)
  : list (option (outcome A)) :=
  foldl (fun f i => match outs !! i with Some o => <[i := Some o]> f | None => f end)
        fs rest.

(** The exception that ends a gather early, if any. *)
Definition trip (return_exceptions : bool) (outs : list (outcome A)) (rest : list nat) : option exn :=
  if return_exceptions then None else first_raised outs rest.

End Gather.

(** Every child finishes, once. *)
Definition complete_order (n : nat) (order : list nat) : Prop :=
  Permutation order (seq 0 n).

End Py.
Import Py.

(** ** The record model *)

Record OscarFilm : Type := {
  title : string;
  year : Z;
  nominations : Z;
  awards : Z;
  best_picture : bool;
}.

(** ** Direct strategy: [fetch_year] of [crawler-api/main.py] *)

Module Ajax.

(** What [response.json()] evaluates to: [None] when the payload is not JSON,
    otherwise a Python object that either cannot be iterated (a number, a
    boolean, null) or yields items. *)
Inductive pyobj (raw_item : Type) : Type :=
| NotIterable
| Iterable (items : list raw_item).
Arguments NotIterable {raw_item}.
Arguments Iterable {raw_item} items.

Record Response (raw_item : Type) : Type := {
  status_code : Z;
  body : option (pyobj raw_item);
}.
Arguments status_code {raw_item} r.
Arguments body {raw_item} r.

Inductive get_result (raw_item : Type) : Type :=
| GetRaises (e : exn)
| GetResponse (r : Response raw_item).
Arguments GetRaises {raw_item} e.
Arguments GetResponse {raw_item} r.

(** What [fetch_year] does to the outside world. *)
Inductive event : Type :=
| EvGet (year : Z) (attempt : Z)
| EvSleep (seconds : Q).

Definition gets (t : list event) : list Z :=
  omap (fun ev => match ev with EvGet _ a => Some a | EvSleep _ => None end) t.

Definition sleeps (t : list event) : list Q :=
  omap (fun ev => match ev with EvSleep s => Some s | EvGet _ _ => None end) t.

Definition is_sleep (ev : event) : bool :=
  match ev with EvSleep _ => true | EvGet _ _ => false end.

Section FetchYear.

(** The items of a decoded payload, and [OscarFilm.model_validate], which
    yields a film or raises [ValidationError]. *)
Variable raw_item : Type.
Variable model_validate : raw_item -> option OscarFilm.

(** [client slot year attempt]: the answer of
    [client.get(BASE_URL, params={"ajax": "true", "year": year}, timeout=20.0)]
    to the [attempt]-th request of the task dispatched in position [slot]. *)
Definition Client : Type := nat -> Z -> Z -> get_result raw_item.

(** [response.raise_for_status()]: httpx raises [HTTPStatusError] unless the
    status is a success (2xx). *)
Definition raise_for_status (r : Response raw_item) : outcome unit :=
  if (200 <=? status_code r) && (status_code r <=? 299)
  then Returned tt
  else Raised (HTTPStatusError (status_code r)).

(** [response.json()] *)
Definition json (r : Response raw_item) : outcome (pyobj raw_item) :=
  match body r with
  | None => Raised JSONDecodeError
  | Some o => Returned o
  end.

(** [[OscarFilm.model_validate(item) for item in raw_items]] *)
Fixpoint validate_items (items : list raw_item) : outcome (list OscarFilm) :=
  match items with
  | [] => Returned []
  | item :: rest =>
      match model_validate item with
      | None => Raised ValidationError
      | Some film => films ← validate_items rest; Returned (film :: films)
      end
  end.

Definition validate_all (raw_items : pyobj raw_item) : outcome (list OscarFilm) :=
  match raw_items with
  | NotIterable => Raised TypeError
  | Iterable items => validate_items items
  end.

(** Lines 84-87: what follows a response that arrived. *)
Definition parse_response (r : Response raw_item) : outcome (list OscarFilm) :=
  _ ← raise_for_status r;
  raw_items ← json r;
  validate_all raw_items.

(** The body of the [try] (lines 79-87). *)
Definition attempt_once (client : Client) (slot : nat) (year attempt : Z)
  : outcome (list OscarFilm) :=
  match client slot year attempt with
  | GetRaises e => Raised e
  | GetResponse r => parse_response r
  end.

(** [except (httpx.RequestError, httpx.HTTPStatusError)] *)
Definition caught (e : exn) : bool :=
  match e with
  | RequestError _ | HTTPStatusError _ => true
  | _ => false
  end.

(** [0.5 * attempt] *)
Definition backoff (attempt : Z) : Q := ((1 # 2) * inject_Z attempt)%Q.

(** The [for attempt in ...] loop with its [last_exc], and the [raise last_exc]
    after it ([raise None] is a [TypeError]). *)
Fixpoint fetch_loop (client : Client) (slot : nat) (year : Z)
    (attempts : list Z) (last_exc : option exn)
  : outcome (list OscarFilm) * list event :=
  match attempts with
  | [] => (Raised (default TypeError last_exc), [])
  | attempt :: rest =>
      match attempt_once client slot year attempt with
      | Returned films => (Returned films, [EvGet year attempt])
      | Raised exc =>
          if caught exc then
            if attempt <? 3 then
              let '(res, t) := fetch_loop client slot year rest (Some exc) in
              (res, EvGet year attempt :: EvSleep (backoff attempt) :: t)
            else (Raised exc, [EvGet year attempt])
          else (Raised exc, [EvGet year attempt])
      end
  end.

Definition fetch_year (client : Client) (slot : nat) (year : Z)
  : outcome (list OscarFilm) * list event :=
  fetch_loop client slot year (range 1 4) None.

End FetchYear.


(** *** [crawl_oscar_films] *)

Definition DEFAULT_YEARS : list Z := range 2010 2016.

(** [years or DEFAULT_YEARS] *)
Definition years_or_default (years : option (list Z)) : list Z :=
  match years with
  | Some (y :: rest) => y :: rest
  | _ => DEFAULT_YEARS
  end.

Section Crawl.

Variable raw_item : Type.
Variable model_validate : raw_item -> option OscarFilm.
(** Python's [repr] on exceptions. *)
Variable repr : exn -> string.

(** [f"year={year}: {repr(result)}"] *)
Definition format_error (year : Z) (e : exn) : string :=
  "year=" +:+ str year +:+ ": " +:+ repr e.

(** The loop of lines 111-115 over [zip(years_to_fetch, results)]. *)
Definition collect_step (acc : list OscarFilm * list string)
    (yr : Z * outcome (list OscarFilm)) : list OscarFilm * list string :=
  match yr.2 with
  | Raised e => (acc.1, acc.2 ++ [format_error yr.1 e])
  | Returned result => (acc.1 ++ result, acc.2)
  end.

Definition collect (years_to_fetch : list Z) (results : list (outcome (list OscarFilm)))
  : list OscarFilm * list string :=
  foldl collect_step ([], []) (zip years_to_fetch results).

Definition all_failed_message (errors : list string) : string :=
  "AJAX crawl failed for all years: " +:+ join "; " errors.

(** Lines 117-132. *)
Definition conclude (films : list OscarFilm) (errors : list string)
  : outcome (list OscarFilm) :=
  match errors, films with
  | _ :: _, [] => Raised (RuntimeError (all_failed_message errors))
  | _, _ => Returned films
  end.

(** The records of the partitions that succeeded, in enumeration order, and
    the descriptions of those that failed. *)
Definition successes (yrs : list (Z * outcome (list OscarFilm))) : list OscarFilm :=
  yrs ≫= (fun yr => match yr.2 with Returned result => result | Raised _ => [] end).

Definition failures (yrs : list (Z * outcome (list OscarFilm))) : list string :=
  omap (fun yr => match yr.2 with
                  | Raised e => Some (format_error yr.1 e)
                  | Returned _ => None
                  end) yrs.

(** The tasks handed to [gather], in dispatch order. *)
Definition tasks (client : Client raw_item) (years_to_fetch : list Z)
  : list (outcome (list OscarFilm) * list event) :=
  imap (fun slot year => fetch_year raw_item model_validate client slot year)
       years_to_fetch.

(** [crawl_oscar_films(years)]: its result ([None] while the gather is not
    over) and the log of every task. *)
Definition crawl_oscar_films (client : Client raw_item) (order : list nat)
    (years : option (list Z))
  : option (outcome (list OscarFilm)) * list (list event) :=
  let years_to_fetch := years_or_default years in
  let ts := tasks client years_to_fetch in
  (match gather true (fst <$> ts) order with
   | None => None
   | Some (Raised e) => Some (Raised e)
   | Some (Returned results) =>
       let '(films, errors) := collect years_to_fetch results in
       Some (conclude films errors)
   end,
   snd <$> ts).

End Crawl.

End Ajax.
Import Ajax.

(** ** Browser strategy: [crawler-oscar/selenium_crawler.py] *)

Module Selenium.

(** An [a.year-link] anchor: its [id] attribute and the words of its [class]
    attribute, [(link.get_attribute("class") or "").split()]. *)
Record Link : Type := {
  link_id : option string;
  link_classes : list string;
}.

(** A browser session after [driver.get(BASE_URL)]. *)
Record Session : Type := {
  (* wait.until(lambda d: d.find_elements(By.CSS_SELECTOR, "a.year-link")) *)
  wait_year_links : outcome (list Link);
  (* wait.until(lambda d: d.find_element(By.ID, str(year))) *)
  wait_year_id : Z -> outcome unit;
  (* driver.find_element(By.ID, str(year)).click() *)
  click_year : Z -> outcome unit;
  (* _scrape_current_table(driver, year) *)
  scrape_current_table : Z -> outcome (list OscarFilm);
}.

(** The sessions [_build_driver] opens: one for discovery, one per fetch task
    (by position and year). *)
Record Web : Type := {
  discovery_driver : outcome Session;
  fetch_driver : nat -> Z -> outcome Session;
}.

(** Browser sessions a crawl opens. *)
Inductive event : Type :=
| EvDiscover
| EvFetch (year : Z).

#[export] Instance event_eq_dec : EqDecision event.
Proof. solve_decision. Defined.

(** The records of the tasks that returned, by position. *)
Definition records (outs : list (outcome (list OscarFilm))) : list OscarFilm :=
  outs ≫= (fun o => match o with Returned sublist => sublist | Raised _ => [] end).

Section Crawl.

(** [int(year_id)], [None] for [ValueError]. *)
Variable int_of_str : string -> option Z.

(** The body of [for link in links] (lines 101-113). *)
Definition scan_link (acc : list Z * option Z) (link : Link) : list Z * option Z :=
  match link_id link with
  | None => acc
  | Some year_id =>
      if bool_decide (year_id = "") then acc
      else match int_of_str year_id with
           | None => acc
           | Some year_int =>
               (acc.1 ++ [year_int],
                if bool_decide ("active" ∈ link_classes link)
                then Some year_int else acc.2)
           end
  end.

Definition _discover_years_and_first_page (web : Web)
  : outcome (list Z * Z * list OscarFilm) :=
  driver ← discovery_driver web;
  links ← match wait_year_links driver with
          | Raised TimeoutException =>
              Raised (RuntimeError "Timeout waiting for .year-link anchors on Oscar page")
          | o => o
          end;
  let '(years_found, active_year) := foldl scan_link ([], None) links in
  match years_found with
  | [] => Raised (RuntimeError "Nenhum ano encontrado via Selenium (.year-link).")
  | first :: _ =>
      let active_year := default first active_year in
      _ ← click_year driver active_year;
      first_films ← scrape_current_table driver active_year;
      Returned (years_found, active_year, first_films)
  end.

Definition _fetch_year_selenium (web : Web) (slot : nat) (year : Z)
  : outcome (list OscarFilm) :=
  driver ← fetch_driver web slot year;
  _ ← wait_year_id driver year;
  _ ← click_year driver year;
  scrape_current_table driver year.

(** [for sublist in results: acc.extend(sublist)]; an exception object is not
    iterable. *)
Fixpoint extend_all (acc : list OscarFilm) (results : list (outcome (list OscarFilm)))
  : outcome (list OscarFilm) :=
  match results with
  | [] => Returned acc
  | Returned sublist :: rest => extend_all (acc ++ sublist) rest
  | Raised _ :: _ => Raised TypeError
  end.

(** [await asyncio.gather] over [run_one(y) for y in ys], then the flattening. *)
Definition fetch_all (web : Web) (order : list nat) (acc : list OscarFilm)
    (ys : list Z) : option (outcome (list OscarFilm)) :=
  match gather false (imap (_fetch_year_selenium web) ys) order with
  | None => None
  | Some (Raised e) => Some (Raised e)
  | Some (Returned results) => Some (extend_all acc results)
  end.

Definition crawl_oscar_films_selenium (web : Web) (order : list nat)
    (years : option (list Z))
  : option (outcome (list OscarFilm)) * list event :=
  match years with
  | Some years_to_fetch =>
      (fetch_all web order [] years_to_fetch, EvFetch <$> years_to_fetch)
  | None =>
      match _discover_years_and_first_page web with
      | Raised e => (Some (Raised e), [EvDiscover])
      | Returned (years_found, active_year, first_films) =>
          let remaining_years := filter (fun y => y ≠ active_year) years_found in
          match remaining_years with
          | [] => (Some (Returned first_films), [EvDiscover])
          | _ =>
              (fetch_all web order first_films remaining_years,
               EvDiscover :: (EvFetch <$> remaining_years))
          end
      end
  end.

End Crawl.

End Selenium.

(** ** Job tracking: [crawler-api/main.py] *)

Module Jobs.

Inductive JobStatusEnum : Type := pending | running | completed | failed.

Inductive CrawlModeEnum : Type := selenium | ajax.

(** Timestamps are clock readings. *)
Record CrawlJobResult : Type := {
  job_id : string;
  status : JobStatusEnum;
  created_at : Z;
  updated_at : Z;
  total_films : Z;
  data_file : option string;
  error : option string;
  films : option (list OscarFilm);
}.

Record CrawlRequest : Type := {
  mode : CrawlModeEnum;
  years : option (list Z);
}.

(** What a background run meets: the network, the browser, the order in which
    the gathered tasks finish, and the file system under [write_text]. *)
Record World (raw_item : Type) : Type := {
  client : Client raw_item;
  web : Selenium.Web;
  order : list nat;
  write_text : string -> outcome unit;
}.
Arguments client {raw_item} w.
Arguments web {raw_item} w.
Arguments order {raw_item} w.
Arguments write_text {raw_item} w.

(** A background task of the job: added by the endpoint, started by the
    scheduler (it then holds the [job] it read), over at last. *)
Inductive task : Type :=
| Scheduled (mode : CrawlModeEnum) (years : option (list Z))
| Running (job : CrawlJobResult) (mode : CrawlModeEnum) (years : option (list Z))
| Finished.

(** The module-level [jobs] dictionary and the background tasks. *)
Record system : Type := {
  jobs : gmap string CrawlJobResult;
  background : gmap string task;
}.

Definition initial : system := {| jobs := ∅; background := ∅ |}.

Section Tracker.

Variable raw_item : Type.
Variable model_validate : raw_item -> option OscarFilm.
Variable repr : exn -> string.
Variable int_of_str : string -> option Z.
(** [str(DATA_DIR)] *)
Variable DATA_DIR : string.

(** [main.py]'s [crawl_oscar_films_selenium] delegates to the shared crawler. *)
Definition crawl_oscar_films_selenium (w : World raw_item) (years : option (list Z))
  : option (outcome (list OscarFilm)) :=
  (Selenium.crawl_oscar_films_selenium int_of_str (web w) (order w) years).1.

(** The awaited expression of lines 155-159. *)
Definition run_crawl (w : World raw_item) (mode : CrawlModeEnum)
    (years : option (list Z)) : option (outcome (list OscarFilm)) :=
  match mode with
  | selenium => crawl_oscar_films_selenium w years
  | ajax => (crawl_oscar_films raw_item model_validate repr (client w) (order w) years).1
  end.

Definition _job_file_path (job_id : string) : string :=
  DATA_DIR +:+ "/oscar_" +:+ job_id +:+ ".json".

(** The three [job.model_copy(update=...)] of [_run_crawl_job]. *)
Definition copy_running (job : CrawlJobResult) (now : Z) : CrawlJobResult :=
  {| job_id := job_id job; status := running;
     created_at := created_at job; updated_at := now;
     total_films := total_films job; data_file := data_file job;
     error := error job; films := films job |}.

Definition copy_completed (job : CrawlJobResult) (now : Z)
    (file_path : string) (fs : list OscarFilm) : CrawlJobResult :=
  {| job_id := job_id job; status := completed;
     created_at := created_at job; updated_at := now;
     total_films := Z.of_nat (length fs); data_file := Some file_path;
     error := error job; films := Some fs |}.

Definition copy_failed (job : CrawlJobResult) (now : Z) (exc : exn) : CrawlJobResult :=
  {| job_id := job_id job; status := failed;
     created_at := created_at job; updated_at := now;
     total_films := total_films job; data_file := data_file job;
     error := Some (repr exc); films := films job |}.

(** Lines 151-152: up to the first [await]. *)
Definition run_start (js : gmap string CrawlJobResult) (id : string) (now : Z)
  : outcome (CrawlJobResult * gmap string CrawlJobResult) :=
  match js !! id with
  | None => Raised (OtherError "KeyError")
  | Some job => Returned (job, <[id := copy_running job now]> js)
  end.

(** The rest of the [try] once the crawl is over (lines 160-166). *)
Definition try_body (w : World raw_item) (id : string)
    (crawled : outcome (list OscarFilm)) : outcome (list OscarFilm * string) :=
  fs ← crawled;
  let file_path := _job_file_path id in
  _ ← write_text w file_path;
  Returned (fs, file_path).

(** Lines 154-186 from the point where the awaited crawl gives [crawled]. *)
Definition run_finish (w : World raw_item) (job : CrawlJobResult)
    (js : gmap string CrawlJobResult) (id : string) (now : Z)
    (crawled : outcome (list OscarFilm)) : gmap string CrawlJobResult :=
  match try_body w id crawled with
  | Returned (fs, file_path) => <[id := copy_completed job now file_path fs]> js
  | Raised exc => <[id := copy_failed job now exc]> js
  end.

(** [_run_crawl_job] run without other tasks in between: what the coroutine
    itself evaluates to, and the dictionary afterwards; [None] while the crawl
    is not over. *)
Definition _run_crawl_job (w : World raw_item) (js : gmap string CrawlJobResult)
    (id : string) (mode : CrawlModeEnum) (years : option (list Z))
    (now1 now2 : Z) : option (outcome unit * gmap string CrawlJobResult) :=
  match run_start js id now1 with
  | Raised e => Some (Raised e, js)
  | Returned (job, js1) =>
      match run_crawl w mode years with
      | None => None
      | Some crawled => Some (Returned tt, run_finish w job js1 id now2 crawled)
      end
  end.

(** [trigger_oscar_crawl]: [uuid] is [uuid.uuid4().hex]; the result is the
    returned job, the dictionary, and the task handed to [background_tasks]. *)
Definition trigger_oscar_crawl (js : gmap string CrawlJobResult) (uuid : string)
    (now : Z) (body : CrawlRequest)
  : CrawlJobResult * gmap string CrawlJobResult * task :=
  let job := {| job_id := uuid; status := pending;
                created_at := now; updated_at := now;
                total_films := 0; data_file := None;
                error := None; films := None |} in
  (job, <[uuid := job]> js, Scheduled (mode body) (years body)).

(** [get_results]: the stored job, or 404. *)
Definition get_results (js : gmap string CrawlJobResult) (id : string)
  : option CrawlJobResult := js !! id.

(** One step of the service: a submission (with a token never issued before),
    the scheduler starting a task, or a running task getting the result of its
    crawl. *)
Inductive step : system -> system -> Prop :=
| step_submit s uuid now body job js t :
    jobs s !! uuid = None ->
    trigger_oscar_crawl (jobs s) uuid now body = (job, js, t) ->
    step s {| jobs := js; background := <[uuid := t]> (background s) |}
| step_start s id m ys now job js :
    background s !! id = Some (Scheduled m ys) ->
    run_start (jobs s) id now = Returned (job, js) ->
    step s {| jobs := js; background := <[id := Running job m ys]> (background s) |}
| step_finish s id m ys now job w crawled :
    background s !! id = Some (Running job m ys) ->
    run_crawl w m ys = Some crawled ->
    step s {| jobs := run_finish w job (jobs s) id now crawled;
              background := <[id := Finished]> (background s) |}.

Definition reachable (s : system) : Prop := rtc step initial s.

End Tracker.

(** The lifecycle invariant of one job snapshot. *)
Definition records_iff_completed (j : CrawlJobResult) : Prop :=
  is_Some (films j) <-> status j = completed.

Definition error_iff_failed (j : CrawlJobResult) : Prop :=
  is_Some (error j) <-> status j = failed.

Definition total_matches (j : CrawlJobResult) : Prop :=
  match status j with
  | completed => exists fs, films j = Some fs /\ total_films j = Z.of_nat (length fs)
  | pending | running => total_films j = 0
  | failed => True
  end.

Definition job_ok (j : CrawlJobResult) : Prop :=
  records_iff_completed j /\ error_iff_failed j /\ total_matches j.

(** A job as [trigger_oscar_crawl] builds it, whatever its times. *)
Definition fresh (j : CrawlJobResult) : Prop :=
  status j = pending /\ total_films j = 0 /\ error j = None /\ films j = None.

(** What holds of every state of the service: stored jobs are well formed, a
    task not yet started has its job as submitted, and a running task holds
    the job as submitted. *)
Definition invariant (s : system) : Prop :=
  (forall id j, jobs s !! id = Some j -> job_ok j) /\
  (forall id m ys, background s !! id = Some (Scheduled m ys) ->
     exists j, jobs s !! id = Some j /\ fresh j) /\
  (forall id job m ys, background s !! id = Some (Running job m ys) -> fresh job).

End Jobs.

(** ** The shared table scrape: [_scrape_current_table] *)

Module Scrape.

(** A [tr.film] row of [tbody#table-body]: the text of each cell, [None] when
    [row.find_element] finds no such cell, and the number of
    [i.glyphicon-flag] elements in the best-picture cell. *)
Record Row : Type := {
  film_title : option string;
  film_nominations : option string;
  film_awards : option string;
  flag_icons : nat;
}.

Section Scrape.

(** [str.strip] and [int] on a string ([None] for [ValueError]). *)
Variable strip : string -> string.
Variable int_of_str : string -> option Z.

(** [row.find_element(By.CSS_SELECTOR, ...).text] *)
Definition cell_text (cell : option string) : outcome string :=
  match cell with
  | Some text => Returned text
  | None => Raised (OtherError "NoSuchElementException")
  end.

(** [int(text)] *)
Definition int (text : string) : outcome Z :=
  match int_of_str text with
  | Some n => Returned n
  | None => Raised (OtherError "ValueError")
  end.

(** [OscarFilm(title=..., year=..., ...)], with the [strip_title] validator. *)
Definition make_film (title : string) (year nominations awards : Z)
    (best_picture : bool) : OscarFilm :=
  {| title := strip title; year := year; nominations := nominations;
     awards := awards; best_picture := best_picture |}.

(** The body of [for row in rows] (lines 67-82). *)
Definition scrape_row (year : Z) (row : Row) : outcome OscarFilm :=
  title ← cell_text (film_title row);
  nominations ← cell_text (film_nominations row) ≫= int;
  awards ← cell_text (film_awards row) ≫= int;
  let best_picture := bool_decide (0 < flag_icons row)%nat in
  Returned (make_film title year nominations awards best_picture).

(** The loop, with its accumulator [films]. *)
Fixpoint scrape_rows (year : Z) (films : list OscarFilm) (rows : list Row)
  : outcome (list OscarFilm) :=
  match rows with
  | [] => Returned films
  | row :: rest =>
      film ← scrape_row year row;
      scrape_rows year (films ++ [film]) rest
  end.

(** [_scrape_current_table(driver, year)] on a page whose table holds [rows]:
    the wait for a first row times out on an empty table. *)
Definition _scrape_current_table (rows : list Row) (year : Z)
  : outcome (list OscarFilm) :=
  match rows with
  | [] => Raised TimeoutException
  | _ => scrape_rows year [] rows
  end.

(** [film] is what row [row] shows for [year]: every cell is there, the two
    counts are numbers, the title is stripped, and the flag tells whether the
    best-picture cell holds an icon. *)
Definition shows (year : Z) (row : Row) (film : OscarFilm) : Prop :=
  exists t n a N A,
    film_title row = Some t /\
    film_nominations row = Some n /\ int_of_str n = Some N /\
    film_awards row = Some a /\ int_of_str a = Some A /\
    film = {| title := strip t; year := year; nominations := N; awards := A;
              best_picture := bool_decide (0 < flag_icons row)%nat |}.

End Scrape.

End Scrape.

(** ** The command-line crawler: [crawler-oscar/main.py] *)

Module Cli.

Section Cli.

Variable raw_item : Type.
Variable model_validate : raw_item -> option OscarFilm.

(** [fetch_year] of the command line: one request, no retry. *)
Definition fetch_year (client : Client raw_item) (slot : nat) (year : Z)
  : outcome (list OscarFilm) * list Ajax.event :=
  (match client slot year 1 with
   | GetRaises e => Raised e
   | GetResponse response =>
       _ ← raise_for_status raw_item response;
       raw_items ← json raw_item response;
       validate_all raw_item model_validate raw_items
   end,
   [EvGet year 1]).

(** [[film for sublist in results for film in sublist]] *)
Fixpoint flatten (results : list (outcome (list OscarFilm)))
  : outcome (list OscarFilm) :=
  match results with
  | [] => Returned []
  | Returned sublist :: rest => films ← flatten rest; Returned (sublist ++ films)
  | Raised _ :: _ => Raised TypeError
  end.

Definition tasks (client : Client raw_item) (years_to_fetch : list Z)
  : list (outcome (list OscarFilm) * list Ajax.event) :=
  imap (fun slot year => fetch_year client slot year) years_to_fetch.

(** [crawl_oscar_films_ajax(years)] *)
Definition crawl_oscar_films_ajax (client : Client raw_item) (order : list nat)
    (years : option (list Z))
  : option (outcome (list OscarFilm)) * list (list Ajax.event) :=
  let years_to_fetch := years_or_default years in
  let ts := tasks client years_to_fetch in
  (match gather false (fst <$> ts) order with
   | None => None
   | Some (Raised e) => Some (Raised e)
   | Some (Returned results) => Some (flatten results)
   end,
   snd <$> ts).

End Cli.

End Cli.

(** ** Vocabulary for requests, for the lifecycle of jobs and for discovery *)

(** A request of the log is for year [y]. *)
Definition for_year (y : Z) (ev : Ajax.event) : Prop :=
  match ev with EvGet y' _ => y' = y | EvSleep _ => True end.

Module Lifecycle.

Import Jobs.

(** How far a job is: pending, running, over. *)
Definition rank (st : JobStatusEnum) : nat :=
  match st with
  | pending => 0
  | running => 1
  | completed | failed => 2
  end.

Definition terminal (j : CrawlJobResult) : Prop :=
  status j = completed \/ status j = failed.

Section Tracked.

Variable repr : exn -> string.
Variable DATA_DIR : string.

(** What the background task of a job says about the stored job. *)
Definition tracked (s : system) (id : string) : Prop :=
  match background s !! id with
  | None => jobs s !! id = None
  | Some (Scheduled _ _) =>
      exists j, jobs s !! id = Some j /\ fresh j /\ job_id j = id /\ data_file j = None
  | Some (Running job _ _) =>
      fresh job /\ job_id job = id /\ data_file job = None /\
      exists now, jobs s !! id = Some (copy_running job now)
  | Some Finished =>
      exists j, jobs s !! id = Some j /\ terminal j /\ job_id j = id /\
        (status j = completed -> data_file j = Some (_job_file_path DATA_DIR id)) /\
        (status j = failed -> data_file j = None)
  end.

Definition all_tracked (s : system) : Prop := forall id, tracked s id.

End Tracked.

End Lifecycle.

Module Discovery.

Import Selenium.

Section Discovery.

Variable int_of_str : string -> option Z.

(** The year an anchor stands for, when its [id] is a number. *)
Definition link_year (link : Link) : option Z :=
  match link_id link with
  | None => None
  | Some year_id => if bool_decide (year_id = "") then None else int_of_str year_id
  end.

Definition parsed_years (links : list Link) : list Z := omap link_year links.

(** The years of the anchors whose class list has [active]. *)
Definition active_years (links : list Link) : list Z :=
  omap (fun link => if bool_decide ("active" ∈ link_classes link)
                    then link_year link else None) links.

End Discovery.

End Discovery.

(** ** Concrete worlds *)

Module Scenario.

Definition inception : OscarFilm :=
  {| title := "Inception"; year := 2010; nominations := 8; awards := 4;
     best_picture := false |}.

(** Payload items that are already films, or junk. *)
Definition validate (item : option OscarFilm) : option OscarFilm := item.

Definition ok (items : list (option OscarFilm)) : get_result (option OscarFilm) :=
  GetResponse {| status_code := 200; body := Some (Iterable items) |}.

(** Every request times out. *)
Definition client_down : Client (option OscarFilm) :=
  fun _ _ _ => GetRaises (RequestError "ReadTimeout").

(** The first task gets an empty list of films; the others time out. *)
Definition client_empty_then_down : Client (option OscarFilm) :=
  fun slot _ _ => if (slot =? 0)%nat then ok [] else GetRaises (RequestError "ReadTimeout").

(** One time-out, then a success response that is not JSON. *)
Definition client_garbled : Client (option OscarFilm) :=
  fun _ _ attempt =>
    if attempt =? 1 then GetRaises (RequestError "ReadTimeout")
    else GetResponse {| status_code := 200; body := None |}.

(** A 404 on the first request, films on the second. *)
Definition client_404_then_ok : Client (option OscarFilm) :=
  fun _ _ attempt =>
    if attempt =? 1 then GetResponse {| status_code := 404; body := None |}
    else ok [Some inception].

(** A rendering of exceptions by class name, for worked examples. *)
Definition repr_class (e : exn) : string :=
  match e with
  | RequestError d => d +:+ "()"
  | HTTPStatusError s => "HTTPStatusError(" +:+ str s +:+ ")"
  | JSONDecodeError => "JSONDecodeError()"
  | ValidationError => "ValidationError()"
  | TypeError => "TypeError()"
  | RuntimeError m => "RuntimeError('" +:+ m +:+ "')"
  | TimeoutException => "TimeoutException()"
  | OtherError c => c +:+ "()"
  end.

(** A session in which every wait and click succeeds and the table shows [fs]
    with the year asked for; the page lists 2015 (active), 2014 and 2013. *)
Definition session_showing (fs : list OscarFilm) : Selenium.Session :=
  {| Selenium.wait_year_links :=
       Returned [ {| Selenium.link_id := Some "2015";
                     Selenium.link_classes := ["year-link"; "active"] |};
                  {| Selenium.link_id := Some "2014";
                     Selenium.link_classes := ["year-link"] |};
                  {| Selenium.link_id := Some "2013";
                     Selenium.link_classes := ["year-link"] |} ];
     Selenium.wait_year_id := fun _ => Returned tt;
     Selenium.click_year := fun _ => Returned tt;
     Selenium.scrape_current_table := fun _ => Returned fs |}.

(** A session in which nothing ever appears. *)
Definition session_stuck : Selenium.Session :=
  {| Selenium.wait_year_links := Raised TimeoutException;
     Selenium.wait_year_id := fun _ => Raised TimeoutException;
     Selenium.click_year := fun _ => Raised (OtherError "NoSuchElementException");
     Selenium.scrape_current_table := fun _ => Raised TimeoutException |}.

Definition film_of (y : Z) : OscarFilm :=
  {| title := "Film of " +:+ str y; year := y; nominations := 1; awards := 0;
     best_picture := false |}.

(** Every year loads and shows one film, except 2011, whose session is stuck. *)
Definition web_2011_stuck : Selenium.Web :=
  {| Selenium.discovery_driver := Returned (session_showing [film_of 2015]);
     Selenium.fetch_driver := fun _ y =>
       if y =? 2011 then Returned session_stuck
       else Returned (session_showing [film_of y]) |}.

(** Decimal digits only. *)
Definition int_of_digits (s : string) : option Z :=
  Z.of_int <$> NilZero.int_of_string s.

(** A world in which the network is down and the browser shows its films. *)
Definition world_down : Jobs.World (option OscarFilm) :=
  {| Jobs.client := client_down; Jobs.web := web_2011_stuck;
     Jobs.order := [1; 0]%nat; Jobs.write_text := fun _ => Returned tt |}.

(** A world in which the second request of every task brings one film. *)
Definition world_up : Jobs.World (option OscarFilm) :=
  {| Jobs.client := client_404_then_ok; Jobs.web := web_2011_stuck;
     Jobs.order := [1; 0]%nat; Jobs.write_text := fun _ => Returned tt |}.

Definition request_2010_2011 : Jobs.CrawlRequest :=
  {| Jobs.mode := Jobs.ajax; Jobs.years := Some [2010; 2011] |}.

(** What the direct crawl raises in [world_down] for 2010 and 2011. *)
Definition all_down_error : exn :=
  RuntimeError
    "AJAX crawl failed for all years: year=2010: ReadTimeout(); year=2011: ReadTimeout()".

(** One job, from submission to completion in [world_up]. *)
Definition job_submitted : Jobs.CrawlJobResult :=
  {| Jobs.job_id := "job-1"; Jobs.status := Jobs.pending;
     Jobs.created_at := 100; Jobs.updated_at := 100;
     Jobs.total_films := 0; Jobs.data_file := None;
     Jobs.error := None; Jobs.films := None |}.

Definition state_submitted : Jobs.system :=
  {| Jobs.jobs := <["job-1" := job_submitted]> ∅;
     Jobs.background := <["job-1" := Jobs.Scheduled Jobs.ajax (Some [2010; 2011])]> ∅ |}.

Definition state_started : Jobs.system :=
  {| Jobs.jobs :=
       <["job-1" := Jobs.copy_running job_submitted 101]> (Jobs.jobs state_submitted);
     Jobs.background :=
       <["job-1" := Jobs.Running job_submitted Jobs.ajax (Some [2010; 2011])]>
         (Jobs.background state_submitted) |}.

Definition state_done : Jobs.system :=
  {| Jobs.jobs :=
       Jobs.run_finish (option OscarFilm) repr_class "/data" world_up job_submitted
         (Jobs.jobs state_started) "job-1" 105 (Returned [inception; inception]);
     Jobs.background := <["job-1" := Jobs.Finished]> (Jobs.background state_started) |}.

Definition job_done : Jobs.CrawlJobResult :=
  Jobs.copy_completed job_submitted 105 "/data/oscar_job-1.json" [inception; inception].

(** Stripping of ASCII white space, for worked examples. *)
Fixpoint lstrip (s : string) : string :=
  match s with
  | String a rest => if Ascii.is_space a then lstrip rest else s
  | EmptyString => EmptyString
  end.

Definition strip_ascii (s : string) : string :=
  String.rev (lstrip (String.rev (lstrip s))).

Definition row_inception : Scrape.Row :=
  {| Scrape.film_title := Some " Inception "; Scrape.film_nominations := Some "8";
     Scrape.film_awards := Some "4"; Scrape.flag_icons := 1 |}.

Definition row_kings_speech : Scrape.Row :=
  {| Scrape.film_title := Some "The King's Speech"; Scrape.film_nominations := Some "12";
     Scrape.film_awards := Some "4"; Scrape.flag_icons := 0 |}.

(** What those two rows show for 2010. *)
Definition film_inception_2010 : OscarFilm :=
  {| title := "Inception"; year := 2010; nominations := 8; awards := 4;
     best_picture := true |}.

Definition film_kings_speech_2010 : OscarFilm :=
  {| title := "The King's Speech"; year := 2010; nominations := 12; awards := 4;
     best_picture := false |}.

(** A row whose awards cell is not a number. *)
Definition row_garbled : Scrape.Row :=
  {| Scrape.film_title := Some "Toy Story 3"; Scrape.film_nominations := Some "5";
     Scrape.film_awards := Some "two"; Scrape.flag_icons := 0 |}.

(** A session whose table holds [rows] for every year, scraped by the shared
    routine. *)
Definition session_of_rows (rows : list Scrape.Row) : Selenium.Session :=
  {| Selenium.wait_year_links :=
       Returned [ {| Selenium.link_id := Some "2010";
                     Selenium.link_classes := ["year-link"] |} ];
     Selenium.wait_year_id := fun _ => Returned tt;
     Selenium.click_year := fun _ => Returned tt;
     Selenium.scrape_current_table :=
       Scrape._scrape_current_table strip_ascii int_of_digits rows |}.

Definition web_of_rows (rows : list Scrape.Row) : Selenium.Web :=
  {| Selenium.discovery_driver := Returned (session_of_rows rows);
     Selenium.fetch_driver := fun _ _ => Returned (session_of_rows rows) |}.

(** A page with no usable anchor: one has no id, one has an id that is no
    number. *)
Definition session_no_years : Selenium.Session :=
  {| Selenium.wait_year_links :=
       Returned [ {| Selenium.link_id := None; Selenium.link_classes := ["year-link"] |};
                  {| Selenium.link_id := Some "latest";
                     Selenium.link_classes := ["year-link"; "active"] |} ];
     Selenium.wait_year_id := fun _ => Returned tt;
     Selenium.click_year := fun _ => Returned tt;
     Selenium.scrape_current_table := fun _ => Returned [] |}.

Definition web_no_years : Selenium.Web :=
  {| Selenium.discovery_driver := Returned session_no_years;
     Selenium.fetch_driver := fun _ _ => Returned session_no_years |}.

(** Every request brings one film at once. *)
Definition client_ok : Client (option OscarFilm) :=
  fun _ _ _ => ok [Some inception].

(** The first task gets one film; the others time out. *)
Definition client_one_then_down : Client (option OscarFilm) :=
  fun slot _ _ =>
    if (slot =? 0)%nat then ok [Some inception]
    else GetRaises (RequestError "ReadTimeout").

Definition world_partial : Jobs.World (option OscarFilm) :=
  {| Jobs.client := client_one_then_down; Jobs.web := web_2011_stuck;
     Jobs.order := [1; 0]%nat; Jobs.write_text := fun _ => Returned tt |}.

(** As [world_up], on a disk that cannot be written. *)
Definition world_disk_full : Jobs.World (option OscarFilm) :=
  {| Jobs.client := client_404_then_ok; Jobs.web := web_2011_stuck;
     Jobs.order := [1; 0]%nat;
     Jobs.write_text := fun _ => Raised (OtherError "OSError") |}.

(** A second submission, after the first job is over. *)
Definition job_2_submitted : Jobs.CrawlJobResult :=
  {| Jobs.job_id := "job-2"; Jobs.status := Jobs.pending;
     Jobs.created_at := 200; Jobs.updated_at := 200;
     Jobs.total_films := 0; Jobs.data_file := None;
     Jobs.error := None; Jobs.films := None |}.

Definition state_second_submitted : Jobs.system :=
  {| Jobs.jobs := <["job-2" := job_2_submitted]> (Jobs.jobs state_done);
     Jobs.background :=
       <["job-2" := Jobs.Scheduled Jobs.selenium None]> (Jobs.background state_done) |}.

End Scenario.

(** * Properties *)

(** ** The retry loop of [fetch_year] *)

Section FetchYearFacts.

Variable raw_item : Type.
Variable model_validate : raw_item -> option OscarFilm.

#[local] Arguments Ajax.attempt_once : simpl never.
#[local] Arguments Ajax.backoff : simpl never.

Ltac attempt_numbers :=
  change (Z.of_nat 1) with 1 in *; change (Z.of_nat 2) with 2 in *;
  change (Z.of_nat 3) with 3 in *.

Abbreviation attempt_once := (attempt_once raw_item model_validate).
Abbreviation fetch_year := (fetch_year raw_item model_validate).

(** [fetch_year] as a decision tree over its three attempts. *)
Lemma fetch_year_cases (client : Client raw_item) slot y :
  fetch_year client slot y =
  match attempt_once client slot y 1 with
  | Returned fs => (Returned fs, [EvGet y 1])
  | Raised e1 =>
    if caught e1 then
      match attempt_once client slot y 2 with
      | Returned fs => (Returned fs, [EvGet y 1; EvSleep (backoff 1); EvGet y 2])
      | Raised e2 =>
        if caught e2 then
          (attempt_once client slot y 3,
           [EvGet y 1; EvSleep (backoff 1); EvGet y 2; EvSleep (backoff 2); EvGet y 3])
        else (Raised e2, [EvGet y 1; EvSleep (backoff 1); EvGet y 2])
      end
    else (Raised e1, [EvGet y 1])
  end.
Proof.
  unfold Ajax.fetch_year.
  change (range 1 4) with [1; 2; 3]. cbn [fetch_loop].
  change (1 <? 3) with true. change (2 <? 3) with true. change (3 <? 3) with false.
  destruct (attempt_once client slot y 1) as [fs1|e1]; [done|].
  destruct (caught e1); [|done].
  destruct (attempt_once client slot y 2) as [fs2|e2]; [done|].
  destruct (caught e2); [|done].
  destruct (attempt_once client slot y 3) as [fs3|e3]; [done|].
  by destruct (caught e3).
Qed.

(** Attempts [1 .. k-1] each ended in an exception the [except] clause takes. *)
Definition retried_before (client : Client raw_item) slot y (k : nat) : Prop :=
  forall j : nat, (1 <= j < k)%nat ->
    exists e, attempt_once client slot y (Z.of_nat j) = Raised e /\ caught e = true.

Lemma backoff_1 : (backoff 1 == 1 # 2)%Q.
Proof. reflexivity. Qed.

Lemma backoff_2 : (backoff 2 == 1)%Q.
Proof. reflexivity. Qed.

(** C4. Whatever the network answers, [fetch_year] makes [k] requests with
    [1 <= k <= 3], numbered 1 to [k]; it sleeps exactly between consecutive
    requests, 0.5 after the first and 1.0 after the second; the log ends with
    a request, and the call evaluates to what the last request's attempt
    evaluates to (so a failing third attempt is raised at once). *)
Theorem fetch_year_retry_schedule (client : Client raw_item) slot y :
  exists k : nat,
    (1 <= k <= 3)%nat /\
    gets (fetch_year client slot y).2 = take k [1; 2; 3] /\
    Forall2 Qeq (sleeps (fetch_year client slot y).2) (take (k - 1) [1 # 2; 1]%Q) /\
    is_sleep <$> (fetch_year client slot y).2
      = take (2 * k - 1) [false; true; false; true; false] /\
    (fetch_year client slot y).1 = attempt_once client slot y (Z.of_nat k).
Proof.
  rewrite fetch_year_cases.
  destruct (attempt_once client slot y 1) as [fs1|e1] eqn:H1.
  { exists 1%nat. cbn. attempt_numbers. rewrite H1. repeat split; auto. }
  destruct (caught e1).
  2:{ exists 1%nat. cbn. attempt_numbers. rewrite H1. repeat split; auto. }
  destruct (attempt_once client slot y 2) as [fs2|e2] eqn:H2.
  { exists 2%nat. cbn. attempt_numbers. rewrite H2. repeat split; auto using backoff_1. }
  destruct (caught e2).
  2:{ exists 2%nat. cbn. attempt_numbers. rewrite H2. repeat split; auto using backoff_1. }
  exists 3%nat. cbn. repeat split; auto using backoff_1, backoff_2.
Qed.

(** A response that arrived with a success status and whose payload does not
    parse makes the attempt raise an exception the [except] clause lets through. *)
Lemma parse_error_kinds (r : Response raw_item) e :
  raise_for_status raw_item r = Returned tt ->
  parse_response raw_item model_validate r = Raised e ->
  caught e = false /\ (e = JSONDecodeError \/ e = ValidationError \/ e = TypeError).
Proof.
  unfold parse_response. intros -> H. cbn in H.
  unfold json in H. destruct (body r) as [[|items]|]; cbn in H.
  - inversion H; auto.
  - assert (Hv : forall l e', validate_items raw_item model_validate l = Raised e' ->
                   e' = ValidationError).
    { induction l as [|i l IH]; intros e' He'; cbn in He'; [done|].
      destruct (model_validate i); [|by inversion He'].
      destruct (validate_items raw_item model_validate l) eqn:Hl; cbn in He'; [done|].
      inversion He'; subst. by apply IH. }
    apply Hv in H as ->. auto.
  - inversion H; auto.
Qed.

(** C8. When the attempts before the [k]-th were retried and the [k]-th
    request gets a success response whose payload fails to parse (not JSON,
    not iterable, or an item that does not validate), [fetch_year] raises
    that parse error, has made exactly the requests 1 to [k], and the error
    is none of the kinds the retry clause catches. *)
Theorem parse_failure_not_retried (client : Client raw_item) slot y (k : nat) r e :
  (1 <= k <= 3)%nat ->
  retried_before client slot y k ->
  client slot y (Z.of_nat k) = GetResponse r ->
  raise_for_status raw_item r = Returned tt ->
  parse_response raw_item model_validate r = Raised e ->
  (fetch_year client slot y).1 = Raised e /\
  gets (fetch_year client slot y).2 = take k [1; 2; 3] /\
  length (sleeps (fetch_year client slot y).2) = (k - 1)%nat /\
  caught e = false /\
  (e = JSONDecodeError \/ e = ValidationError \/ e = TypeError).
Proof.
  intros Hk Hbefore Hget Hok Hparse.
  destruct (parse_error_kinds r e Hok Hparse) as [Hnc Hkind].
  assert (Hatt : attempt_once client slot y (Z.of_nat k) = Raised e).
  { unfold Ajax.attempt_once. by rewrite Hget. }
  rewrite fetch_year_cases.
  assert (k = 1 \/ k = 2 \/ k = 3)%nat as [-> | [-> | ->]] by lia.
  - attempt_numbers. rewrite Hatt, Hnc. auto.
  - destruct (Hbefore 1%nat) as (e1 & He1 & Hc1); [lia|].
    attempt_numbers. rewrite He1, Hc1, Hatt, Hnc. auto.
  - destruct (Hbefore 1%nat) as (e1 & He1 & Hc1); [lia|].
    destruct (Hbefore 2%nat) as (e2 & He2 & Hc2); [lia|].
    attempt_numbers. rewrite He1, Hc1, He2, Hc2, Hatt. auto.
Qed.

(** C10. When the attempts before the [k]-th were retried and the [k]-th
    request gets a response whose status is outside 200..299 (a 4xx as much as
    a 5xx), the attempt raises [HTTPStatusError], which the retry clause
    catches: the next request, when [k < 3], is made after the backoff sleep,
    and only the third attempt's status error is raised to the caller. *)
Theorem non_2xx_status_retried (client : Client raw_item) slot y (k : nat) r :
  (1 <= k <= 3)%nat ->
  retried_before client slot y k ->
  client slot y (Z.of_nat k) = GetResponse r ->
  ~ (200 <= status_code r <= 299) ->
  attempt_once client slot y (Z.of_nat k) = Raised (HTTPStatusError (status_code r)) /\
  caught (HTTPStatusError (status_code r)) = true /\
  take (S k) [1; 2; 3] `prefix_of` gets (fetch_year client slot y).2 /\
  (min k 2 <= length (sleeps (fetch_year client slot y).2))%nat /\
  (k = 3%nat -> (fetch_year client slot y).1 = Raised (HTTPStatusError (status_code r))).
Proof.
  intros Hk Hbefore Hget Hstatus.
  assert (Hatt : attempt_once client slot y (Z.of_nat k)
                 = Raised (HTTPStatusError (status_code r))).
  { unfold Ajax.attempt_once, parse_response, raise_for_status. rewrite Hget.
    destruct (200 <=? status_code r) eqn:H1; destruct (status_code r <=? 299) eqn:H2;
      cbn; try done. lia. }
  split; [done|]. split; [done|].
  rewrite fetch_year_cases.
  assert (k = 1 \/ k = 2 \/ k = 3)%nat as [-> | [-> | ->]] by lia.
  - attempt_numbers. rewrite Hatt. cbn.
    destruct (attempt_once client slot y 2) as [fs2|e2]; [|destruct (caught e2)]; cbn;
      (split; [|split; [lia|lia]]).
    + by exists [].
    + by exists [3].
    + by exists [].
  - destruct (Hbefore 1%nat) as (e1 & He1 & Hc1); [lia|].
    attempt_numbers. rewrite He1, Hc1, Hatt. cbn. split; [by exists []|]. split; lia.
  - destruct (Hbefore 1%nat) as (e1 & He1 & Hc1); [lia|].
    destruct (Hbefore 2%nat) as (e2 & He2 & Hc2); [lia|].
    attempt_numbers. rewrite He1, Hc1, He2, Hc2, Hatt. cbn.
    split; [by exists []|]. split; [lia|done].
Qed.

End FetchYearFacts.

(** ** [asyncio.gather] *)

Section GatherFacts.

Context {A : Type}.
Implicit Types (outs : list (outcome A)) (st : gather_state (A := A)).

Lemma outer_sticky re outs rest : forall st r,
  outer st = Some r -> outer (foldl (done_callback re outs) st rest) = Some r.
Proof.
  induction rest as [|i rest IH]; intros st r Hr; [done|].
  cbn [foldl]. apply IH. unfold done_callback.
  destruct (outs !! i); [|done]. by rewrite Hr.
Qed.

Lemma futs_fold re outs rest : forall st,
  futs (foldl (done_callback re outs) st rest) = fill outs (futs st) rest.
Proof.
  induction rest as [|i rest IH]; intros st; [done|].
  cbn [foldl fill]. rewrite IH. unfold fill. f_equal.
  unfold done_callback. destruct (outs !! i) as [o|]; [|done].
  destruct (outer st); [done|].
  destruct re, o; try done; by destruct (_ =? _)%nat.
Qed.

Lemma fill_lookup outs rest : forall fs i,
  length fs = length outs ->
  fill outs fs rest !! i = if decide (i ∈ rest) then Some <$> outs !! i else fs !! i.
Proof.
  induction rest as [|j rest IH]; intros fs i Hlen.
  { cbn. by rewrite decide_False by apply not_elem_of_nil. }
  set (fs' := match outs !! j with Some o => <[j := Some o]> fs | None => fs end).
  change (fill outs fs (j :: rest)) with (fill outs fs' rest).
  assert (Hlen' : length fs' = length outs).
  { subst fs'. destruct (outs !! j); [by rewrite length_insert|done]. }
  rewrite (IH fs' i Hlen').
  destruct (decide (i ∈ rest)) as [Hin|Hnin].
  { rewrite decide_True; [done|]. by right. }
  destruct (decide (i = j)) as [->|Hne].
  - rewrite decide_True by left. subst fs'.
    destruct (outs !! j) as [o|] eqn:Hj.
    + apply lookup_lt_Some in Hj. rewrite list_lookup_insert_eq; [done|lia].
    + apply lookup_ge_None in Hj. cbn. apply lookup_ge_None. lia.
  - rewrite decide_False by (intros [?|?]%elem_of_cons; done).
    subst fs'. destruct (outs !! j); [|done]. by rewrite list_lookup_insert_ne.
Qed.

Lemma fill_complete outs order :
  complete_order (length outs) order ->
  fill outs (replicate (length outs) None) order = Some <$> outs.
Proof.
  intros Hperm. apply list_eq. intros i.
  rewrite fill_lookup by apply length_replicate.
  rewrite list_lookup_fmap.
  destruct (decide (i ∈ order)) as [Hin|Hnin]; [done|].
  assert (Hge : (length outs <= i)%nat).
  { destruct (decide (i < length outs)%nat) as [Hlt|]; [|lia].
    exfalso. apply Hnin. rewrite Hperm. apply elem_of_seq. lia. }
  rewrite (proj2 (lookup_ge_None outs i) Hge). cbn.
  apply lookup_ge_None. rewrite length_replicate. lia.
Qed.

Lemma gather_fold re outs rest : forall st,
  outer st = None ->
  (forall i, i ∈ rest -> (i < length outs)%nat) ->
  (nfinished st + length rest <= length outs)%nat ->
  outer (foldl (done_callback re outs) st rest) =
  match trip re outs rest with
  | Some e => Some (Raised e)
  | None =>
      if decide (rest ≠ [] /\ (nfinished st + length rest)%nat = length outs)
      then Some (Returned (child_result <$> fill outs (futs st) rest))
      else None
  end.
Proof.
  induction rest as [|i rest IH]; intros st Hout Hrange Hcount.
  { cbn. destruct re; cbn; by rewrite decide_False by (by intros [? _]). }
  destruct (outs !! i) as [o|] eqn:Hi.
  2:{ apply lookup_ge_None in Hi. specialize (Hrange i ltac:(left)). lia. }
  cbn [foldl length] in *.
  assert (Hcb : done_callback re outs st i =
    match re, o with
    | false, Raised exc =>
        {| futs := <[i := Some o]> (futs st); nfinished := S (nfinished st);
           outer := Some (Raised exc) |}
    | _, _ =>
        if (S (nfinished st) =? length outs)%nat
        then {| futs := <[i := Some o]> (futs st); nfinished := S (nfinished st);
                outer := Some (Returned (child_result <$> <[i := Some o]> (futs st))) |}
        else {| futs := <[i := Some o]> (futs st); nfinished := S (nfinished st);
                outer := None |}
    end).
  { unfold done_callback. rewrite Hi, Hout. by destruct re, o. }
  assert (Hfill : fill outs (futs st) (i :: rest) = fill outs (<[i := Some o]> (futs st)) rest).
  { unfold fill. cbn [foldl]. by rewrite Hi. }
  assert (Hearly : re = false -> forall exc, o = Raised exc ->
            outer (foldl (done_callback re outs) (done_callback re outs st i) rest)
            = Some (Raised exc) /\ trip re outs (i :: rest) = Some exc).
  { intros -> exc ->. split.
    - apply outer_sticky. by rewrite Hcb.
    - cbn. by rewrite Hi. }
  assert (Hlate : (re = true \/ exists a, o = Returned a) ->
            trip re outs (i :: rest) = trip re outs rest /\
            done_callback re outs st i =
              if (S (nfinished st) =? length outs)%nat
              then {| futs := <[i := Some o]> (futs st); nfinished := S (nfinished st);
                outer := Some (Returned (child_result <$> <[i := Some o]> (futs st))) |}
              else {| futs := <[i := Some o]> (futs st); nfinished := S (nfinished st);
                outer := None |}).
  { intros [-> | [a ->]]; (split; [|by rewrite Hcb; try destruct re]).
    - done.
    - unfold trip. destruct re; [done|]. cbn. by rewrite Hi. }
  assert (Hcase : (re = false /\ exists exc, o = Raised exc) \/
                  (re = true \/ exists a, o = Returned a)).
  { destruct re; [eauto|]. destruct o; eauto. }
  destruct Hcase as [[Hre [exc Ho]]|Hl].
  { destruct (Hearly Hre exc Ho) as [-> ->]. done. }
  destruct (Hlate Hl) as [-> ->].
  destruct (S (nfinished st) =? length outs)%nat eqn:Hn.
  - apply Nat.eqb_eq in Hn. assert (rest = []) as ->.
    { destruct rest; [done|]. cbn in Hcount. lia. }
    cbn [foldl outer]. rewrite Hfill.
    assert (trip re outs [] = None) as -> by (by destruct re).
    rewrite decide_True by (split; [done|cbn; lia]). done.
  - apply Nat.eqb_neq in Hn.
    rewrite IH; [|done|by intros; apply Hrange; right|cbn; lia].
    cbn [nfinished futs]. rewrite Hfill.
    destruct (trip re outs rest); [done|].
    destruct rest as [|j rest].
    + rewrite decide_False by (by intros [? _]).
      rewrite decide_False; [done|]. cbn. lia.
    + destruct (decide ((S (nfinished st) + length (j :: rest))%nat = length outs)).
      * rewrite !decide_True; [done|split; [done|lia]|split; [done|lia]].
      * rewrite !decide_False; [done|lia|lia].
Qed.

(** Once every child has finished, the gather is over: it raises the first
    failure in finishing order unless [return_exceptions], and otherwise
    gives every child's value or exception by position. *)
Lemma gather_complete re outs order :
  complete_order (length outs) order ->
  gather re outs order =
  Some match trip re outs order with
       | Some e => Raised e
       | None => Returned outs
       end.
Proof.
  intros Hperm.
  assert (Hlen : length order = length outs).
  { rewrite Hperm. apply length_seq. }
  destruct (decide (outs = [])) as [->|Hne].
  { destruct order; [|done]. by destruct re. }
  assert (gather re outs order
          = outer (foldl (done_callback re outs) (gather_init outs) order)) as ->.
  { unfold gather. by destruct outs. }
  rewrite gather_fold.
  - destruct (trip re outs order); [done|].
    rewrite decide_True.
    + cbn [gather_init futs]. rewrite fill_complete by done.
      rewrite <- list_fmap_compose. f_equal. f_equal.
      clear. induction outs; [done|]. cbn. by f_equal.
    + split; [|cbn; lia]. intros ->. by destruct outs.
  - done.
  - intros i Hi. rewrite Hperm in Hi. apply elem_of_seq in Hi. lia.
  - cbn. lia.
Qed.

(** A gather without [return_exceptions] is over as soon as a child has
    failed, whichever children are still running. *)
Lemma gather_raises_early outs order e :
  NoDup order ->
  (forall i, i ∈ order -> (i < length outs)%nat) ->
  first_raised outs order = Some e ->
  gather false outs order = Some (Raised e).
Proof.
  intros Hnodup Hrange Hfirst.
  assert (Hlen : (length order <= length outs)%nat).
  { assert (Hsub : order ⊆+ seq 0 (length outs)).
    { apply NoDup_submseteq; [done|]. intros i Hi. apply elem_of_seq.
      specialize (Hrange i Hi). lia. }
    apply submseteq_length in Hsub. by rewrite length_seq in Hsub. }
  assert (gather false outs order
          = outer (foldl (done_callback false outs) (gather_init outs) order)) as ->.
  { unfold gather. destruct outs; [exfalso|done].
    clear -Hfirst. induction order as [|i order IH]; [done|]. by apply IH. }
  rewrite gather_fold; [|done|done|cbn; lia].
  cbn [trip]. by rewrite Hfirst.
Qed.

End GatherFacts.

(** ** Strings *)

Lemma string_app_assoc (a b c : string) : (a +:+ b) +:+ c = a +:+ (b +:+ c).
Proof.
  induction a as [|x a IH]; [reflexivity|].
  change (String x ((a +:+ b) +:+ c) = String x (a +:+ b +:+ c)). by rewrite IH.
Qed.

Lemma string_app_empty_r (s : string) : s +:+ "" = s.
Proof.
  induction s as [|x s IH]; [reflexivity|].
  change (String x (s +:+ "") = String x s). by rewrite IH.
Qed.

Lemma mentions_refl (s : string) : mentions s s.
Proof.
  exists "", "". change ("" +:+ s +:+ "") with (s +:+ ""). by rewrite string_app_empty_r.
Qed.

Lemma mentions_trans (a b c : string) : mentions a b -> mentions b c -> mentions a c.
Proof.
  intros (p1 & q1 & ->) (p2 & q2 & ->).
  exists (p1 +:+ p2), (q2 +:+ q1). by rewrite !string_app_assoc.
Qed.

Lemma mentions_app_l (a b s : string) : mentions b s -> mentions (a +:+ b) s.
Proof. intros (p & q & ->). exists (a +:+ p), q. by rewrite !string_app_assoc. Qed.

Lemma mentions_app_r (a b s : string) : mentions a s -> mentions (a +:+ b) s.
Proof. intros (p & q & ->). exists p, (q +:+ b). by rewrite !string_app_assoc. Qed.

Lemma mentions_join (sep s : string) (parts : list string) :
  s ∈ parts -> mentions (join sep parts) s.
Proof.
  induction parts as [|p parts IH]; [by intros ?%elem_of_nil|].
  intros [->|Hin]%elem_of_cons.
  - destruct parts; [apply mentions_refl|]. apply mentions_app_r, mentions_refl.
  - destruct parts as [|p' parts]; [by apply elem_of_nil in Hin|].
    change (join sep (p :: p' :: parts)) with (p +:+ sep +:+ join sep (p' :: parts)).
    by apply mentions_app_l, mentions_app_l, IH.
Qed.

(** ** [crawl_oscar_films] *)

Section CrawlFacts.

Variable raw_item : Type.
Variable model_validate : raw_item -> option OscarFilm.
Variable repr : exn -> string.

Abbreviation fetch := (fetch_year raw_item model_validate).
Abbreviation crawl := (crawl_oscar_films raw_item model_validate repr).
Abbreviation results_of client ys := ((tasks raw_item model_validate client ys).*1).

Lemma collect_step_fold (l : list (Z * outcome (list OscarFilm))) : forall fs es,
  foldl (collect_step repr) (fs, es) l = (fs ++ successes l, es ++ failures repr l).
Proof.
  induction l as [|[y [r|e]] l IH]; intros fs es; cbn [foldl].
  - cbn. by rewrite !app_nil_r.
  - change (collect_step repr (fs, es) (y, Returned r)) with (fs ++ r, es).
    rewrite IH. cbn. by rewrite <- app_assoc.
  - change (collect_step repr (fs, es) (y, Raised e))
      with (fs, es ++ [format_error repr y e]).
    rewrite IH. cbn. by rewrite <- app_assoc.
Qed.

Lemma collect_spec ys rs :
  collect repr ys rs = (successes (zip ys rs), failures repr (zip ys rs)).
Proof. unfold collect. by rewrite collect_step_fold. Qed.

Lemma results_lookup (client : Client raw_item) ys slot :
  results_of client ys !! slot = (fun y => (fetch client slot y).1) <$> ys !! slot.
Proof.
  unfold tasks. rewrite list_lookup_fmap, list_lookup_imap. by destruct (ys !! slot).
Qed.

Lemma results_length (client : Client raw_item) ys :
  length (results_of client ys) = length ys.
Proof. unfold tasks. by rewrite length_fmap, length_imap. Qed.

(** With every task over, the crawl is the verdict on the zipped outcomes. *)
Lemma crawl_complete (client : Client raw_item) order years :
  complete_order (length (years_or_default years)) order ->
  (crawl client order years).1 =
  Some (let yrs := zip (years_or_default years)
                       (results_of client (years_or_default years)) in
        conclude (successes yrs) (failures repr yrs)).
Proof.
  intros Hord. unfold crawl_oscar_films. cbn [fst].
  rewrite gather_complete by (by rewrite results_length).
  cbn [trip]. by rewrite collect_spec.
Qed.

Lemma years_or_default_nonempty years : years_or_default years ≠ [].
Proof. by destruct years as [[|]|]. Qed.

Lemma all_raised_verdict (yrs : list (Z * outcome (list OscarFilm))) :
  yrs ≠ [] ->
  Forall (fun yr => is_raised yr.2 = true) yrs ->
  conclude (successes yrs) (failures repr yrs)
  = Raised (RuntimeError (all_failed_message (failures repr yrs))).
Proof.
  intros Hne Hall.
  assert (successes yrs = []) as ->.
  { clear Hne. induction Hall as [|[y [r|e]] l Hx _ IH]; [done|done|]. exact IH. }
  destruct Hall as [|[y [r|e]] l Hx _]; [done|done|]. done.
Qed.

Lemma format_error_mentions_year y e : mentions (format_error repr y e) (str y).
Proof. unfold format_error. by exists "year=", (": " +:+ repr e). Qed.

(** C2. When every task of the gather is over and each of the N partitions
    failed, [crawl_oscar_films] raises one [RuntimeError]; its message is the
    fixed prefix followed by the per-partition descriptions, and for every
    partition it contains the partition key and the description
    [year=<key>: <repr of that partition's exception>]. *)
Theorem all_partitions_failed_error (client : Client raw_item) order years :
  complete_order (length (years_or_default years)) order ->
  (forall slot y, years_or_default years !! slot = Some y ->
     is_raised (fetch client slot y).1 = true) ->
  exists msg,
    (crawl client order years).1 = Some (Raised (RuntimeError msg)) /\
    forall slot y, years_or_default years !! slot = Some y ->
      exists e, (fetch client slot y).1 = Raised e /\
        mentions msg (str y) /\
        mentions msg (format_error repr y e).
Proof.
  intros Hord Hall.
  set (ys := years_or_default years) in *.
  set (yrs := zip ys (results_of client ys)).
  exists (all_failed_message (failures repr yrs)). split.
  - rewrite crawl_complete by done. cbn zeta. fold ys yrs. f_equal.
    apply all_raised_verdict.
    + subst yrs. pose proof (years_or_default_nonempty years) as Hne. fold ys in Hne.
      pose proof (results_length client ys) as Hlen.
      destruct ys; [done|]. by destruct (results_of client (z :: ys)).
    + apply Forall_forall. intros [y o] Hin.
      apply list_elem_of_lookup in Hin as [slot Hslot].
      apply lookup_zip_Some in Hslot as [Hy Ho]. rewrite results_lookup, Hy in Ho.
      inversion Ho; subst. by apply (Hall slot).
  - intros slot y Hy.
    destruct (fetch client slot y).1 as [fs|e] eqn:He.
    { specialize (Hall slot y Hy). by rewrite He in Hall. }
    exists e. split; [done|].
    assert (Hm : mentions (all_failed_message (failures repr yrs)) (format_error repr y e)).
    { unfold all_failed_message. apply mentions_app_l, mentions_join.
      apply list_elem_of_omap. exists (y, Raised e). split; [|done].
      apply list_elem_of_lookup. exists slot. apply lookup_zip_Some. split; [done|].
      by rewrite results_lookup, Hy; cbn; rewrite He. }
    split; [|done]. eapply mentions_trans; [exact Hm|apply format_error_mentions_year].
Qed.

(** Partial failure with at least one record collected: the records of the
    partitions that succeeded, in enumeration order, and no exception. *)
Lemma partial_success_with_records (client : Client raw_item) order years :
  complete_order (length (years_or_default years)) order ->
  successes (zip (years_or_default years)
                 (results_of client (years_or_default years))) ≠ [] ->
  (crawl client order years).1 =
  Some (Returned (successes (zip (years_or_default years)
                                 (results_of client (years_or_default years))))).
Proof.
  intros Hord Hne. rewrite crawl_complete by done. cbn zeta. f_equal.
  unfold conclude. destruct (failures _ _); [done|].
  by destruct (successes _).
Qed.

Lemma fetch_year_first_request (client : Client raw_item) slot y :
  head (fetch client slot y).2 = Some (EvGet y 1).
Proof.
  rewrite fetch_year_cases.
  destruct (attempt_once _ _ client slot y 1) as [|e1]; [done|].
  destruct (caught e1); [|done].
  destruct (attempt_once _ _ client slot y 2) as [|e2]; [done|].
  by destruct (caught e2).
Qed.

End CrawlFacts.

(** ** Worked runs of the direct strategy *)

Section DirectRuns.

Import Scenario.

Abbreviation fetch_opt := (fetch_year (option OscarFilm) validate).
Abbreviation crawl_opt := (crawl_oscar_films (option OscarFilm) validate).

Lemma order_01 : complete_order 2 [0; 1]%nat.
Proof. unfold complete_order. reflexivity. Qed.

Lemma order_10 : complete_order 2 [1; 0]%nat.
Proof. unfold complete_order. cbn. apply perm_swap. Qed.

(** C1 (defect). Years 2010 and 2011: the endpoint answers 2010 with an empty
    list of films and every request for 2011 times out.  One partition
    succeeded, yet the crawl raises the all-years-failed error, in whatever
    order the two tasks finish. *)
Theorem partial_success_without_records_raises (repr : exn -> string) :
  (fetch_opt client_empty_then_down 0%nat 2010).1 = Returned [] /\
  (fetch_opt client_empty_then_down 1%nat 2011).1 = Raised (RequestError "ReadTimeout") /\
  (crawl_opt repr client_empty_then_down [0; 1]%nat (Some [2010; 2011])).1
    = Some (Raised (RuntimeError
        ("AJAX crawl failed for all years: year=2011: "
           +:+ repr (RequestError "ReadTimeout")))) /\
  (crawl_opt repr client_empty_then_down [1; 0]%nat (Some [2010; 2011])).1
    = (crawl_opt repr client_empty_then_down [0; 1]%nat (Some [2010; 2011])).1.
Proof.
  split; [reflexivity|]. split; [reflexivity|].
  rewrite !crawl_complete by (apply order_01 || apply order_10).
  split; reflexivity.
Qed.

Lemma all_partitions_failed_error_witness :
  complete_order (length (years_or_default (Some [2010; 2011]))) [0; 1]%nat /\
  (forall slot y, years_or_default (Some [2010; 2011]) !! slot = Some y ->
     is_raised (fetch_opt client_down slot y).1 = true) /\
  exists msg,
    (crawl_opt repr_class client_down [0; 1]%nat (Some [2010; 2011])).1
      = Some (Raised (RuntimeError msg)) /\
    forall slot y, years_or_default (Some [2010; 2011]) !! slot = Some y ->
      exists e, (fetch_opt client_down slot y).1 = Raised e /\
        mentions msg (str y) /\
        mentions msg (format_error repr_class y e).
Proof.
  assert (H1 : complete_order (length (years_or_default (Some [2010; 2011]))) [0; 1]%nat)
    by exact order_01.
  assert (H2 : forall slot y, years_or_default (Some [2010; 2011]) !! slot = Some y ->
     is_raised (fetch_opt client_down slot y).1 = true).
  { intros slot y _. rewrite fetch_year_cases. reflexivity. }
  split; [exact H1|]. split; [exact H2|].
  exact (all_partitions_failed_error (option OscarFilm) validate repr_class
           client_down [0; 1]%nat (Some [2010; 2011]) H1 H2).
Defined.

Lemma parse_failure_not_retried_witness :
  (fetch_opt client_garbled 0%nat 2010).1 = Raised JSONDecodeError /\
  gets (fetch_opt client_garbled 0%nat 2010).2 = take 2 [1; 2; 3] /\
  length (sleeps (fetch_opt client_garbled 0%nat 2010).2) = (2 - 1)%nat /\
  caught JSONDecodeError = false /\
  (JSONDecodeError = JSONDecodeError \/ JSONDecodeError = ValidationError
   \/ JSONDecodeError = TypeError).
Proof.
  apply (parse_failure_not_retried (option OscarFilm) validate client_garbled 0%nat 2010
           2%nat {| status_code := 200; body := None |} JSONDecodeError).
  - lia.
  - intros j Hj. assert (j = 1%nat) as -> by lia.
    exists (RequestError "ReadTimeout"). split; reflexivity.
  - reflexivity.
  - reflexivity.
  - reflexivity.
Defined.

Lemma non_2xx_status_retried_witness :
  attempt_once (option OscarFilm) validate client_404_then_ok 0%nat 2010 (Z.of_nat 1)
    = Raised (HTTPStatusError 404) /\
  caught (HTTPStatusError 404) = true /\
  take 2 [1; 2; 3] `prefix_of` gets (fetch_opt client_404_then_ok 0%nat 2010).2 /\
  (min 1 2 <= length (sleeps (fetch_opt client_404_then_ok 0%nat 2010).2))%nat /\
  (1%nat = 3%nat ->
   (fetch_opt client_404_then_ok 0%nat 2010).1 = Raised (HTTPStatusError 404)).
Proof.
  apply (non_2xx_status_retried (option OscarFilm) validate client_404_then_ok 0%nat 2010
           1%nat {| status_code := 404; body := None |}).
  - lia.
  - intros j Hj. lia.
  - reflexivity.
  - cbn. lia.
Defined.

(** The 404 of the first request costs one attempt and one sleep; the films
    come from the second. *)
Example fetch_after_404 :
  fetch_opt client_404_then_ok 0%nat 2010
  = (Returned [inception], [EvGet 2010 1; EvSleep (backoff 1); EvGet 2010 2]).
Proof. reflexivity. Qed.

End DirectRuns.

(** ** An empty list of years *)

Section EmptyYears.

Variable raw_item : Type.
Variable model_validate : raw_item -> option OscarFilm.
Variable repr : exn -> string.
Variable int_of_str : string -> option Z.

(** C9. In direct mode [Some []] runs exactly as [None] does: the six years
    2010 to 2015 are fetched, each task's first request being for its year.
    In browser mode [Some []] opens no session and returns no film, whatever
    the browser would show. *)
Theorem empty_years_direct_default_browser_nothing
    (client : Client raw_item) (web : Selenium.Web) (order order' : list nat) :
  crawl_oscar_films raw_item model_validate repr client order (Some [])
    = crawl_oscar_films raw_item model_validate repr client order None /\
  years_or_default (Some []) = [2010; 2011; 2012; 2013; 2014; 2015] /\
  head <$> (crawl_oscar_films raw_item model_validate repr client order (Some [])).2
    = [Some (EvGet 2010 1); Some (EvGet 2011 1); Some (EvGet 2012 1);
       Some (EvGet 2013 1); Some (EvGet 2014 1); Some (EvGet 2015 1)] /\
  Selenium.crawl_oscar_films_selenium int_of_str web order' (Some [])
    = (Some (Returned []), []).
Proof.
  split; [reflexivity|]. split; [reflexivity|]. split; [|reflexivity].
  unfold crawl_oscar_films. cbn [snd].
  change (years_or_default (Some [])) with [2010; 2011; 2012; 2013; 2014; 2015].
  unfold tasks. cbn [imap fmap list_fmap snd]. unfold compose.
  by rewrite !fetch_year_first_request.
Qed.

End EmptyYears.

(** ** The browser strategy *)

Section SeleniumFacts.

Import Selenium.

Variable int_of_str : string -> option Z.

Abbreviation crawl_selenium := (crawl_oscar_films_selenium int_of_str).
Abbreviation discover := (_discover_years_and_first_page int_of_str).

Implicit Types (outs : list (outcome (list OscarFilm))).

Lemma first_raised_None_order outs order :
  first_raised outs order = None ->
  forall i e, i ∈ order -> outs !! i ≠ Some (Raised e).
Proof.
  induction order as [|j order IH]; intros Hnone i e Hin; [by apply elem_of_nil in Hin|].
  cbn in Hnone. apply elem_of_cons in Hin as [->|Hin].
  - intros Hj. by rewrite Hj in Hnone.
  - apply IH; [|done]. by destruct (outs !! j) as [[|]|].
Qed.

Lemma first_raised_None_all outs order :
  complete_order (length outs) order ->
  first_raised outs order = None ->
  Forall (fun o => is_raised o = false) outs.
Proof.
  intros Hord Hnone. apply Forall_lookup. intros i o Hi.
  destruct o as [r|e]; [done|]. exfalso.
  apply (first_raised_None_order outs order Hnone i e); [|done].
  rewrite Hord. apply elem_of_seq. apply lookup_lt_Some in Hi. lia.
Qed.

Lemma first_raised_Some outs order e :
  first_raised outs order = Some e ->
  exists i, i ∈ order /\ outs !! i = Some (Raised e).
Proof.
  induction order as [|j order IH]; [done|]. cbn.
  destruct (outs !! j) as [[r|e']|] eqn:Hj.
  - intros (i & ? & ?)%IH. exists i. split; [by right|done].
  - intros [= ->]. exists j. split; [by left|done].
  - intros (i & ? & ?)%IH. exists i. split; [by right|done].
Qed.

Lemma extend_all_returned outs : forall acc,
  Forall (fun o => is_raised o = false) outs ->
  extend_all acc outs = Returned (acc ++ records outs).
Proof.
  induction outs as [|[r|e] outs IH]; intros acc Hall; cbn.
  - by rewrite app_nil_r.
  - rewrite IH by (by inversion Hall). by rewrite <- app_assoc.
  - by inversion Hall.
Qed.

(** With every task over, the gathered fetch either raises the exception of
    the task that failed first, or extends [acc] with every task's films. *)
Lemma fetch_all_complete (web : Web) order acc ys :
  complete_order (length ys) order ->
  fetch_all web order acc ys =
  Some match first_raised (imap (_fetch_year_selenium web) ys) order with
       | Some e => Raised e
       | None => Returned (acc ++ records (imap (_fetch_year_selenium web) ys))
       end.
Proof.
  intros Hord. unfold fetch_all.
  rewrite gather_complete by (by rewrite length_imap).
  cbn [trip].
  destruct (first_raised _ order) eqn:Hfirst; [done|].
  f_equal. apply extend_all_returned.
  apply (first_raised_None_all _ order); [by rewrite length_imap|done].
Qed.

(** C3 (as the code has it). With an explicit list of years and every task
    over: one session is opened per year; the call returns the films of all
    years, in the order of the list, exactly when no task raised; if some task
    raised, the call raises the exception of the task that failed first in
    finishing order, which is that task's own exception and no aggregate.
    The call has raised it as soon as that task is over: for any set of tasks
    [finished] so far that holds a failure, the result is already that
    failure. *)
Theorem selenium_explicit_years_all_or_first_failure (web : Web) order years :
  complete_order (length years) order ->
  (crawl_selenium web order (Some years)).2 = EvFetch <$> years /\
  (crawl_selenium web order (Some years)).1 =
    Some match first_raised (imap (_fetch_year_selenium web) years) order with
         | Some e => Raised e
         | None => Returned (records (imap (_fetch_year_selenium web) years))
         end /\
  ((exists slot y e, years !! slot = Some y /\ _fetch_year_selenium web slot y = Raised e) ->
   exists slot y e, years !! slot = Some y /\ _fetch_year_selenium web slot y = Raised e /\
     (crawl_selenium web order (Some years)).1 = Some (Raised e)) /\
  (forall finished e,
     NoDup finished ->
     (forall i, i ∈ finished -> (i < length years)%nat) ->
     first_raised (imap (_fetch_year_selenium web) years) finished = Some e ->
     (crawl_selenium web finished (Some years)).1 = Some (Raised e)).
Proof.
  intros Hord. split; [done|].
  assert (Hearly : forall finished e,
     NoDup finished ->
     (forall i, i ∈ finished -> (i < length years)%nat) ->
     first_raised (imap (_fetch_year_selenium web) years) finished = Some e ->
     (crawl_selenium web finished (Some years)).1 = Some (Raised e)).
  { intros finished e Hnodup Hrange Hfirst.
    cbn [crawl_oscar_films_selenium fst]. unfold fetch_all.
    rewrite (gather_raises_early _ finished e); [done|done| |done].
    by rewrite length_imap. }
  cut ((crawl_selenium web order (Some years)).1 =
    Some match first_raised (imap (_fetch_year_selenium web) years) order with
         | Some e => Raised e
         | None => Returned (records (imap (_fetch_year_selenium web) years))
         end /\
    ((exists slot y e, years !! slot = Some y /\
        _fetch_year_selenium web slot y = Raised e) ->
     exists slot y e, years !! slot = Some y /\
       _fetch_year_selenium web slot y = Raised e /\
       (crawl_selenium web order (Some years)).1 = Some (Raised e))).
  { intros [H1 H2]. split; [exact H1|]. split; [exact H2|exact Hearly]. }
  clear Hearly.
  assert (Hres : (crawl_selenium web order (Some years)).1 =
    Some match first_raised (imap (_fetch_year_selenium web) years) order with
         | Some e => Raised e
         | None => Returned (records (imap (_fetch_year_selenium web) years))
         end).
  { cbn [crawl_oscar_films_selenium fst]. by rewrite fetch_all_complete. }
  split; [exact Hres|].
  intros (slot & y & e & Hy & He). rewrite Hres.
  destruct (first_raised _ order) as [e'|] eqn:Hfirst.
  - apply first_raised_Some in Hfirst as (i & _ & Hi).
    rewrite list_lookup_imap in Hi.
    destruct (years !! i) as [y'|] eqn:Hy'; [|done]. cbn in Hi.
    exists i, y', e'. split; [done|]. split; [congruence|done].
  - exfalso.
    assert (Hall : Forall (fun o => is_raised o = false)
                     (imap (_fetch_year_selenium web) years)).
    { apply (first_raised_None_all _ order); [by rewrite length_imap|done]. }
    rewrite Forall_lookup in Hall.
    specialize (Hall slot (Raised e)). rewrite list_lookup_imap, Hy in Hall. cbn in Hall.
    rewrite He in Hall. by specialize (Hall eq_refl).
Qed.

Lemma filter_ne_not_elem (a : Z) (l : list Z) : a ∉ filter (fun y => y ≠ a) l.
Proof. intros [? _]%list_elem_of_filter. done. Qed.

Lemma one_discovery (ys : list Z) :
  length (filter (fun ev => ev = EvDiscover) (EvDiscover :: (EvFetch <$> ys))) = 1%nat.
Proof.
  rewrite filter_cons_True by done. cbn [length]. f_equal.
  induction ys as [|z zs IH]; [done|].
  rewrite fmap_cons, filter_cons_False by done. exact IH.
Qed.

(** Discovery opens its session once, whatever comes next. *)
Lemma discovery_runs_once (web : Web) order :
  length (filter (fun ev => ev = EvDiscover) (crawl_selenium web order None).2) = 1%nat.
Proof.
  cbn [crawl_oscar_films_selenium].
  destruct (discover web) as [[[years_found active_year] first_films]|e];
    [|exact (one_discovery [])].
  destruct (filter _ years_found) as [|y l] eqn:Hrem; [exact (one_discovery [])|].
  exact (one_discovery (y :: l)).
Qed.

(** C7. Without explicit years, when discovery returns its years, the active
    year and that year's films: the discovery session is the only one of its
    kind; a fetch session is opened for each discovered year other than the
    active one and none for the active year; and, with every task over, the
    call returns the discovery's films followed by the films of the remaining
    years in discovery order, or raises the first failure among those tasks. *)
Theorem discovery_prefix_without_refetch (web : Web) order
    years_found active_year first_films :
  discover web = Returned (years_found, active_year, first_films) ->
  complete_order (length (filter (fun y => y ≠ active_year) years_found)) order ->
  let remaining_years := filter (fun y => y ≠ active_year) years_found in
  let outs := imap (_fetch_year_selenium web) remaining_years in
  length (filter (fun ev => ev = EvDiscover) (crawl_selenium web order None).2) = 1%nat /\
  (crawl_selenium web order None).2 = EvDiscover :: (EvFetch <$> remaining_years) /\
  (active_year ∉ remaining_years) /\
  (EvFetch active_year ∉ (crawl_selenium web order None).2) /\
  (crawl_selenium web order None).1 =
    Some match first_raised outs order with
         | Some e => Raised e
         | None => Returned (first_films ++ records outs)
         end.
Proof.
  intros Hdisc Hord. cbn zeta.
  set (remaining_years := filter (fun y => y ≠ active_year) years_found) in *.
  split; [apply discovery_runs_once|].
  assert (Hlog : (crawl_selenium web order None).2
                 = EvDiscover :: (EvFetch <$> remaining_years)).
  { cbn [crawl_oscar_films_selenium]. rewrite Hdisc. fold remaining_years.
    by destruct remaining_years. }
  split; [exact Hlog|].
  split; [apply filter_ne_not_elem|].
  split.
  { rewrite Hlog. intros [Heq|Hin]%elem_of_cons; [done|].
    apply list_elem_of_fmap in Hin as (y & [= ->] & Hy).
    by apply filter_ne_not_elem in Hy. }
  cbn [crawl_oscar_films_selenium]. rewrite Hdisc. fold remaining_years.
  pose proof (fetch_all_complete web order first_films remaining_years Hord) as Hall.
  destruct remaining_years as [|y l]; exact Hall.
Qed.

End SeleniumFacts.

(** ** Worked runs of the browser strategy *)

Section BrowserRuns.

Import Selenium Scenario.

(** C3 (as stated, refuted). Years 2010 and 2011 given explicitly: the fetch
    of 2010 returns a film, the fetch of 2011 times out.  The call raises that
    [TimeoutException]; it has raised already when only the failing task is
    over; and it returns no list of films. *)
Lemma selenium_single_failure_fails_call :
  _fetch_year_selenium web_2011_stuck 0%nat 2010 = Returned [film_of 2010] /\
  _fetch_year_selenium web_2011_stuck 1%nat 2011 = Raised TimeoutException /\
  (crawl_oscar_films_selenium int_of_digits web_2011_stuck [0; 1]%nat
     (Some [2010; 2011])).1 = Some (Raised TimeoutException) /\
  (crawl_oscar_films_selenium int_of_digits web_2011_stuck [1]%nat
     (Some [2010; 2011])).1 = Some (Raised TimeoutException) /\
  ~ (exists fs,
       (crawl_oscar_films_selenium int_of_digits web_2011_stuck [0; 1]%nat
          (Some [2010; 2011])).1 = Some (Returned fs)).
Proof.
  repeat split; try reflexivity.
  intros [fs Hfs]. vm_compute in Hfs. discriminate Hfs.
Qed.

Lemma selenium_explicit_years_witness :
  complete_order (length [2010; 2011]) [1; 0]%nat /\
  crawl_oscar_films_selenium int_of_digits web_2011_stuck [1; 0]%nat (Some [2010; 2011])
  = (Some (Raised TimeoutException), [EvFetch 2010; EvFetch 2011]).
Proof.
  assert (H : complete_order (length [2010; 2011]) [1; 0]%nat) by exact order_10.
  split; [exact H|].
  destruct (selenium_explicit_years_all_or_first_failure int_of_digits web_2011_stuck
              [1; 0]%nat [2010; 2011] H) as (Hlog & Hres & _).
  apply injective_projections; [rewrite Hres|rewrite Hlog]; reflexivity.
Defined.

(** Discovery on the page listing 2015 (active), 2014 and 2013. *)
Example discovery_run :
  _discover_years_and_first_page int_of_digits web_2011_stuck
  = Returned ([2015; 2014; 2013], 2015, [film_of 2015]).
Proof. reflexivity. Qed.

Lemma discovery_prefix_witness :
  crawl_oscar_films_selenium int_of_digits web_2011_stuck [1; 0]%nat None
  = (Some (Returned [film_of 2015; film_of 2014; film_of 2013]),
     [EvDiscover; EvFetch 2014; EvFetch 2013]).
Proof.
  assert (H1 : _discover_years_and_first_page int_of_digits web_2011_stuck
               = Returned ([2015; 2014; 2013], 2015, [film_of 2015])) by reflexivity.
  assert (H2 : complete_order
                 (length (filter (fun y => y ≠ 2015) [2015; 2014; 2013])) [1; 0]%nat)
    by exact order_10.
  destruct (discovery_prefix_without_refetch int_of_digits web_2011_stuck [1; 0]%nat
              [2015; 2014; 2013] 2015 [film_of 2015] H1 H2)
    as (_ & Hlog & _ & _ & Hres).
  apply injective_projections; [rewrite Hres|rewrite Hlog]; reflexivity.
Defined.

End BrowserRuns.

(** ** The job tracker *)

Section TrackerFacts.

Import Jobs.

Variable raw_item : Type.
Variable model_validate : raw_item -> option OscarFilm.
Variable repr : exn -> string.
Variable int_of_str : string -> option Z.
Variable DATA_DIR : string.

Abbreviation step' := (step raw_item model_validate repr int_of_str DATA_DIR).
Abbreviation reachable' := (reachable raw_item model_validate repr int_of_str DATA_DIR).
Abbreviation run_crawl' := (run_crawl raw_item model_validate repr int_of_str).
Abbreviation run_finish' := (run_finish raw_item repr DATA_DIR).
Abbreviation run_job := (_run_crawl_job raw_item model_validate repr int_of_str DATA_DIR).

Lemma fresh_ok j : fresh j -> job_ok j.
Proof.
  intros (Hs & Ht & He & Hf).
  unfold job_ok, records_iff_completed, error_iff_failed, total_matches.
  rewrite Hs, He, Hf. repeat split; try done; by intros [? ?].
Qed.

Lemma copy_running_ok job now : fresh job -> job_ok (copy_running job now).
Proof.
  intros (Hs & Ht & He & Hf).
  unfold job_ok, records_iff_completed, error_iff_failed, total_matches. cbn.
  rewrite He, Hf. repeat split; try done; by intros [? ?].
Qed.

Lemma copy_completed_ok job now file_path fs :
  fresh job -> job_ok (copy_completed job now file_path fs).
Proof.
  intros (Hs & Ht & He & Hf).
  unfold job_ok, records_iff_completed, error_iff_failed, total_matches. cbn.
  rewrite He. repeat split; try done; eauto; by intros [? ?].
Qed.

Lemma copy_failed_ok job now exc : fresh job -> job_ok (copy_failed repr job now exc).
Proof.
  intros (Hs & Ht & He & Hf).
  unfold job_ok, records_iff_completed, error_iff_failed, total_matches. cbn.
  rewrite Hf. repeat split; try done; eauto; by intros [? ?].
Qed.

Lemma run_finish_lookup (w : World raw_item) job js id now crawled :
  run_finish' w job js id now crawled !! id =
  Some match try_body raw_item DATA_DIR w id crawled with
       | Returned (fs, file_path) => copy_completed job now file_path fs
       | Raised exc => copy_failed repr job now exc
       end.
Proof.
  unfold run_finish. destruct (try_body _ _ w id crawled) as [[fs file_path]|exc];
    apply lookup_insert_eq.
Qed.

Lemma run_finish_other (w : World raw_item) job js id id' now crawled :
  id ≠ id' -> run_finish' w job js id now crawled !! id' = js !! id'.
Proof.
  intros Hne. unfold run_finish.
  destruct (try_body _ _ w id crawled) as [[fs file_path]|exc];
    by apply lookup_insert_ne.
Qed.

Lemma invariant_initial : invariant initial.
Proof.
  unfold invariant, initial. cbn [jobs background].
  split; [|split]; intros *; by rewrite lookup_empty.
Qed.

Lemma invariant_step s s' : step' s s' -> invariant s -> invariant s'.
Proof.
  intros Hstep (Hjobs & Hsched & Hrun).
  destruct Hstep as [s uuid now body job js t Hnew Htrig
                    |s id m ys now job js Htask Hstart
                    |s id m ys now job w crawled Htask Hcrawl].
  - unfold trigger_oscar_crawl in Htrig. injection Htrig as <- <- <-.
    set (job := {| job_id := uuid; status := pending |}).
    assert (Hfresh : fresh job) by done.
    split; [|split]; cbn [jobs background].
    + intros id j. destruct (decide (uuid = id)) as [->|Hne].
      * rewrite lookup_insert_eq. intros [= <-]. by apply fresh_ok.
      * rewrite lookup_insert_ne by done. apply Hjobs.
    + intros id m ys. destruct (decide (uuid = id)) as [->|Hne].
      * rewrite !lookup_insert_eq. eauto.
      * rewrite !lookup_insert_ne by done. apply Hsched.
    + intros id j m ys. destruct (decide (uuid = id)) as [->|Hne].
      * by rewrite lookup_insert_eq.
      * rewrite lookup_insert_ne by done. apply Hrun.
  - unfold run_start in Hstart.
    destruct (jobs s !! id) as [job0|] eqn:Hjob; [|done].
    injection Hstart as <- <-.
    destruct (Hsched id m ys Htask) as (j & Hj & Hfresh).
    assert (j = job0) as -> by congruence.
    split; [|split]; cbn [jobs background].
    + intros id' j'. destruct (decide (id = id')) as [->|Hne].
      * rewrite lookup_insert_eq. intros [= <-]. by apply copy_running_ok.
      * rewrite lookup_insert_ne by done. apply Hjobs.
    + intros id' m' ys'. destruct (decide (id = id')) as [->|Hne].
      * by rewrite lookup_insert_eq.
      * rewrite !lookup_insert_ne by done. apply Hsched.
    + intros id' j' m' ys'. destruct (decide (id = id')) as [->|Hne].
      * rewrite lookup_insert_eq. by intros [= <- _ _].
      * rewrite lookup_insert_ne by done. apply Hrun.
  - pose proof (Hrun id job m ys Htask) as Hfresh.
    split; [|split]; cbn [jobs background].
    + intros id' j'. destruct (decide (id = id')) as [->|Hne].
      * rewrite run_finish_lookup. intros [= <-].
        destruct (try_body _ _ w id' crawled) as [[fs file_path]|exc];
          [by apply copy_completed_ok|by apply copy_failed_ok].
      * rewrite run_finish_other by done. apply Hjobs.
    + intros id' m' ys'. destruct (decide (id = id')) as [->|Hne].
      * by rewrite lookup_insert_eq.
      * rewrite lookup_insert_ne, run_finish_other by done. apply Hsched.
    + intros id' j' m' ys'. destruct (decide (id = id')) as [->|Hne].
      * by rewrite lookup_insert_eq.
      * rewrite lookup_insert_ne by done. apply Hrun.
Qed.

Lemma reachable_invariant s : reachable' s -> invariant s.
Proof.
  revert s. apply (rtc_ind_r invariant initial).
  - apply invariant_initial.
  - intros s s' _ Hstep IH. by apply (invariant_step s s').
Qed.

(** C5. In every state the service can reach, every stored job has records
    exactly when it is completed and an error exactly when it is failed; a
    completed job's [total_films] is the length of its records, and a pending
    or running job's [total_films] is 0. *)
Theorem job_lifecycle_invariant s id j :
  reachable raw_item model_validate repr int_of_str DATA_DIR s ->
  jobs s !! id = Some j ->
  (is_Some (films j) <-> status j = completed) /\
  (is_Some (error j) <-> status j = failed) /\
  (status j = completed ->
     exists fs, films j = Some fs /\ total_films j = Z.of_nat (length fs)) /\
  (status j = pending \/ status j = running -> total_films j = 0).
Proof.
  intros Hreach Hj.
  destruct (reachable_invariant s Hreach) as (Hjobs & _ & _).
  destruct (Hjobs id j Hj) as (Hrec & Herr & Htot).
  split; [exact Hrec|]. split; [exact Herr|].
  unfold total_matches in Htot. split.
  - intros Hs. by rewrite Hs in Htot.
  - intros [Hs|Hs]; by rewrite Hs in Htot.
Qed.

(** C6. Submission needs no world: it stores and returns a pending job and
    hands the crawl to the background.  When the crawl of that background
    run raises [exc], the run itself ends normally, and the stored job is the
    submitted one marked failed with [repr exc] as its error and no records. *)
Theorem submission_pending_failure_in_snapshot
    (w : World raw_item) js uuid now body now1 now2 exc :
  run_crawl' w (mode body) (years body) = Some (Raised exc) ->
  let '(job, js1, t) := trigger_oscar_crawl js uuid now body in
  status job = pending /\ error job = None /\ films job = None /\
  get_results js1 uuid = Some job /\
  t = Scheduled (mode body) (years body) /\
  exists js2,
    run_job w js1 uuid (mode body) (years body) now1 now2 = Some (Returned tt, js2) /\
    get_results js2 uuid = Some (copy_failed repr job now2 exc) /\
    status (copy_failed repr job now2 exc) = failed /\
    error (copy_failed repr job now2 exc) = Some (repr exc) /\
    films (copy_failed repr job now2 exc) = None.
Proof.
  intros Hcrawl. cbn [trigger_oscar_crawl].
  split; [done|]. split; [done|]. split; [done|].
  split; [apply lookup_insert_eq|]. split; [done|].
  eexists. split.
  - unfold _run_crawl_job, run_start. rewrite lookup_insert_eq, Hcrawl. reflexivity.
  - split; [|done]. unfold get_results. by rewrite run_finish_lookup.
Qed.

End TrackerFacts.

(** ** Worked runs of the job tracker *)

Section TrackerRuns.

Import Jobs Scenario.

Abbreviation step_demo :=
  (step (option OscarFilm) validate repr_class int_of_digits "/data").

Lemma state_done_reachable :
  reachable (option OscarFilm) validate repr_class int_of_digits "/data" state_done.
Proof.
  unfold reachable.
  apply (rtc_l step_demo initial state_submitted).
  { unfold state_submitted.
    apply (step_submit _ _ _ _ _ initial "job-1" 100 request_2010_2011
             job_submitted (<["job-1" := job_submitted]> ∅)
             (Scheduled ajax (Some [2010; 2011]))).
    - apply lookup_empty.
    - reflexivity. }
  apply (rtc_l step_demo state_submitted state_started).
  { unfold state_started.
    apply (step_start _ _ _ _ _ state_submitted "job-1" ajax (Some [2010; 2011]) 101
             job_submitted).
    - apply lookup_insert_eq.
    - unfold run_start, state_submitted. cbn [jobs].
      rewrite lookup_insert_eq. reflexivity. }
  apply rtc_once. unfold state_done.
  apply (step_finish _ _ _ _ _ state_started "job-1" ajax (Some [2010; 2011]) 105
           job_submitted world_up (Returned [inception; inception])).
  - apply lookup_insert_eq.
  - reflexivity.
Defined.

Lemma state_done_lookup : jobs state_done !! "job-1" = Some job_done.
Proof. unfold state_done. cbn [jobs]. rewrite run_finish_lookup. reflexivity. Defined.

Lemma job_lifecycle_invariant_witness :
  (is_Some (films job_done) <-> status job_done = completed) /\
  (is_Some (error job_done) <-> status job_done = failed) /\
  (status job_done = completed ->
     exists fs, films job_done = Some fs /\
       total_films job_done = Z.of_nat (length fs)) /\
  (status job_done = pending \/ status job_done = running -> total_films job_done = 0).
Proof.
  exact (job_lifecycle_invariant (option OscarFilm) validate repr_class int_of_digits
           "/data" state_done "job-1" job_done
           state_done_reachable state_done_lookup).
Defined.

Lemma submission_pending_failure_witness :
  exists js2,
    _run_crawl_job (option OscarFilm) validate repr_class int_of_digits "/data"
      world_down (jobs state_submitted) "job-1" ajax (Some [2010; 2011]) 101 105
    = Some (Returned tt, js2) /\
    get_results js2 "job-1"
    = Some (copy_failed repr_class job_submitted 105 all_down_error).
Proof.
  assert (H : run_crawl (option OscarFilm) validate repr_class int_of_digits world_down
                (mode request_2010_2011) (years request_2010_2011)
              = Some (Raised all_down_error)) by reflexivity.
  pose proof (submission_pending_failure_in_snapshot (option OscarFilm) validate
                repr_class int_of_digits "/data" world_down ∅ "job-1" 100
                request_2010_2011 101 105 all_down_error H) as T.
  cbn [trigger_oscar_crawl] in T.
  destruct T as (_ & _ & _ & _ & _ & js2 & Hrun & Hget & _).
  exists js2. split; [exact Hrun|exact Hget].
Defined.

(** The failed snapshot of that run. *)
Example failed_snapshot :
  copy_failed repr_class job_submitted 105 all_down_error
  = {| job_id := "job-1"; status := failed; created_at := 100; updated_at := 105;
       total_films := 0; data_file := None;
       error := Some "RuntimeError('AJAX crawl failed for all years: year=2010: ReadTimeout(); year=2011: ReadTimeout()')";
       films := None |}.
Proof. reflexivity. Qed.

End TrackerRuns.

(** * Further properties of the code *)

(** ** [fetch_year] and [crawl_oscar_films], beyond the retry schedule *)

Section DirectMore.

Variable raw_item : Type.
Variable model_validate : raw_item -> option OscarFilm.
Variable repr : exn -> string.

Abbreviation attempt := (attempt_once raw_item model_validate).
Abbreviation fetch_api := (fetch_year raw_item model_validate).
Abbreviation crawl_api := (crawl_oscar_films raw_item model_validate repr).
Abbreviation outs_api client ys := ((tasks raw_item model_validate client ys).*1).

(** X1. A retryable error (request error or status error) reaches the caller
    of [fetch_year] only from the third attempt: all three requests were
    made, with the two sleeps of 0.5 and 1.0 between them. *)
Theorem transient_error_only_after_three_attempts
    (client : Client raw_item) slot y e :
  (fetch_api client slot y).1 = Raised e ->
  caught e = true ->
  gets (fetch_api client slot y).2 = [1; 2; 3] /\
  Forall2 Qeq (sleeps (fetch_api client slot y).2) [1 # 2; 1]%Q /\
  attempt client slot y 3 = Raised e.
Proof.
  rewrite fetch_year_cases. intros Hres Hcaught.
  destruct (attempt client slot y 1) as [fs1|e1]; [done|].
  destruct (caught e1) eqn:Hc1.
  2:{ cbn in Hres. injection Hres as ->. congruence. }
  destruct (attempt client slot y 2) as [fs2|e2]; [done|].
  destruct (caught e2) eqn:Hc2.
  2:{ cbn in Hres. injection Hres as ->. congruence. }
  cbn in Hres. split; [done|]. split; [|done].
  constructor; [apply backoff_1|]. constructor; [apply backoff_2|]. constructor.
Qed.

Lemma validate_items_mapM (items : list raw_item) fs :
  validate_items raw_item model_validate items = Returned fs <->
  mapM model_validate items = Some fs.
Proof.
  revert fs. induction items as [|item items IH]; intros fs; cbn.
  - split; intros [= <-]; done.
  - destruct (model_validate item) as [film|]; cbn; [|done].
    destruct (validate_items raw_item model_validate items) as [fs'|e] eqn:Hv;
      destruct (mapM model_validate items) as [fs''|] eqn:Hm; cbn.
    + assert (fs'' = fs') as ->.
      { destruct (IH fs') as [H _]. specialize (H eq_refl). congruence. }
      split; intros [= <-]; done.
    + destruct (IH fs') as [H _]. by specialize (H eq_refl).
    + destruct (IH fs'') as [_ H]. by specialize (H eq_refl).
    + done.
Qed.

Lemma attempt_returned (client : Client raw_item) slot y a fs :
  attempt client slot y a = Returned fs ->
  exists r items,
    client slot y a = GetResponse r /\
    200 <= status_code r <= 299 /\
    body r = Some (Iterable items) /\
    mapM model_validate items = Some fs.
Proof.
  unfold Ajax.attempt_once, parse_response, raise_for_status, json.
  destruct (client slot y a) as [e|r]; [done|].
  destruct (200 <=? status_code r) eqn:H1; [|done].
  destruct (status_code r <=? 299) eqn:H2; [|done]. cbn.
  destruct (body r) as [[|items]|] eqn:Hb; cbn; [done| |done].
  intros Hv. exists r, items. split; [done|]. split; [lia|]. split; [done|].
  by apply validate_items_mapM.
Qed.

Lemma fetch_year_last_attempt (client : Client raw_item) slot y :
  exists k : nat,
    (1 <= k <= 3)%nat /\
    gets (fetch_api client slot y).2 = take k [1; 2; 3] /\
    (fetch_api client slot y).1 = attempt client slot y (Z.of_nat k).
Proof.
  rewrite fetch_year_cases.
  destruct (attempt client slot y 1) as [fs1|e1] eqn:H1.
  { exists 1%nat. change (Z.of_nat 1) with 1. rewrite H1. auto with lia. }
  destruct (caught e1).
  2:{ exists 1%nat. change (Z.of_nat 1) with 1. rewrite H1. auto with lia. }
  destruct (attempt client slot y 2) as [fs2|e2] eqn:H2.
  { exists 2%nat. change (Z.of_nat 2) with 2. rewrite H2. auto with lia. }
  destruct (caught e2).
  2:{ exists 2%nat. change (Z.of_nat 2) with 2. rewrite H2. auto with lia. }
  exists 3%nat. auto with lia.
Qed.

(** X2. Films returned by [fetch_year] are exactly the validated items of one
    success response: some attempt [k] of at most three got a 2xx response
    whose payload is a list, every item of it validated, the films are those
    items in order (one per item), and no request was made after it. *)
Theorem fetch_year_returns_validated_payload
    (client : Client raw_item) slot y fs :
  (fetch_api client slot y).1 = Returned fs ->
  exists (k : nat) r items,
    (1 <= k <= 3)%nat /\
    client slot y (Z.of_nat k) = GetResponse r /\
    200 <= status_code r <= 299 /\
    body r = Some (Iterable items) /\
    mapM model_validate items = Some fs /\
    length fs = length items /\
    gets (fetch_api client slot y).2 = take k [1; 2; 3].
Proof.
  intros Hres.
  destruct (fetch_year_last_attempt client slot y) as (k & Hk & Hgets & Hlast).
  rewrite Hres in Hlast. symmetry in Hlast.
  destruct (attempt_returned client slot y _ fs Hlast) as (r & items & ? & ? & ? & Hm).
  exists k, r, items. repeat split; try done; try lia.
  symmetry. by apply (length_mapM model_validate).
Qed.

End DirectMore.

Section CrawlMore.

Variable raw_item : Type.
Variable model_validate : raw_item -> option OscarFilm.
Variable repr : exn -> string.

Abbreviation fetch_api' := (fetch_year raw_item model_validate).
Abbreviation crawl_api' := (crawl_oscar_films raw_item model_validate repr).
Abbreviation outs_api' client ys := ((tasks raw_item model_validate client ys).*1).

Lemma fetch_year_log_shape (client : Client raw_item) slot y :
  head (fetch_api' client slot y).2 = Some (EvGet y 1) /\
  (1 <= length (gets (fetch_api' client slot y).2) <= 3)%nat /\
  Forall (for_year y) (fetch_api' client slot y).2.
Proof.
  rewrite fetch_year_cases.
  destruct (attempt_once _ _ client slot y 1) as [|e1].
  { cbn. repeat split; try lia. by repeat constructor. }
  destruct (caught e1).
  2:{ cbn. repeat split; try lia. by repeat constructor. }
  destruct (attempt_once _ _ client slot y 2) as [|e2].
  { cbn. repeat split; try lia. by repeat constructor. }
  destruct (caught e2); cbn; (repeat split; try lia); by repeat constructor.
Qed.

(** X3. The direct crawl starts one task per year of the list it was given
    (any integers, repeats included) and no other; the task of a year makes
    between one and three requests, all for that year, the first at once. *)
Theorem each_task_requests_its_own_year (client : Client raw_item) order years slot y :
  years_or_default years !! slot = Some y ->
  length (crawl_api' client order years).2 = length (years_or_default years) /\
  exists t, (crawl_api' client order years).2 !! slot = Some t /\
    head t = Some (EvGet y 1) /\
    (1 <= length (gets t) <= 3)%nat /\
    Forall (for_year y) t.
Proof.
  intros Hy. unfold crawl_oscar_films. cbn [snd]. split.
  - unfold tasks. by rewrite length_fmap, length_imap.
  - exists (fetch_api' client slot y).2. split.
    + unfold tasks. by rewrite list_lookup_fmap, list_lookup_imap, Hy.
    + apply fetch_year_log_shape.
Qed.

Lemma all_returned (outs : list (outcome (list OscarFilm))) :
  Forall (fun o => is_raised o = false) outs ->
  exists fss, outs = Returned <$> fss.
Proof.
  induction 1 as [|[fs|e] outs Ho _ [fss ->]]; [by exists []| |done].
  by exists (fs :: fss).
Qed.

Lemma successes_zip_records ys (outs : list (outcome (list OscarFilm))) :
  length ys = length outs ->
  successes (zip ys outs) = Selenium.records outs.
Proof.
  revert outs. induction ys as [|y ys IH]; intros [|o outs] Hlen; try done.
  cbn in Hlen. cbn. rewrite <- IH by lia. done.
Qed.

Lemma records_returned (fss : list (list OscarFilm)) :
  Selenium.records (Returned <$> fss) = concat fss.
Proof. induction fss as [|fs fss IH]; [done|]. cbn. by rewrite <- IH. Qed.

Lemma failures_none ys (outs : list (outcome (list OscarFilm))) :
  Forall (fun o => is_raised o = false) outs ->
  failures repr (zip ys outs) = [].
Proof.
  intros Hall. revert ys. induction Hall as [|[fs|e] outs Ho _ IH]; intros [|y ys];
    try done. cbn. apply IH.
Qed.

Lemma outs_all_returned (client : Client raw_item) ys :
  (forall slot y, ys !! slot = Some y -> is_raised (fetch_api' client slot y).1 = false) ->
  Forall (fun o => is_raised o = false) (outs_api' client ys).
Proof.
  intros Hall. apply Forall_lookup. intros slot o Ho.
  rewrite results_lookup in Ho. destruct (ys !! slot) as [y|] eqn:Hy; [|done].
  injection Ho as <-. by apply Hall.
Qed.

(** X4. When every task is over and no partition failed, the direct crawl
    returns the films of all partitions, in the order of the years, and
    raises nothing; this holds also when no film at all was found. *)
Theorem all_partitions_succeed_returns_all (client : Client raw_item) order years :
  complete_order (length (years_or_default years)) order ->
  (forall slot y, years_or_default years !! slot = Some y ->
     is_raised (fetch_api' client slot y).1 = false) ->
  exists fss,
    outs_api' client (years_or_default years) = Returned <$> fss /\
    (crawl_api' client order years).1 = Some (Returned (concat fss)).
Proof.
  intros Hord Hall. apply outs_all_returned in Hall.
  destruct (all_returned _ Hall) as [fss Hfss]. exists fss. split; [done|].
  rewrite crawl_complete by done. cbn zeta.
  rewrite failures_none by done.
  rewrite successes_zip_records by (by rewrite results_length).
  rewrite Hfss, records_returned. by destruct (concat fss).
Qed.

(** X5. The direct crawl does not depend on the order in which its tasks
    finish: any two runs in which every task finishes give the same result
    and the same requests. *)
Theorem crawl_independent_of_completion_order
    (client : Client raw_item) order1 order2 years :
  complete_order (length (years_or_default years)) order1 ->
  complete_order (length (years_or_default years)) order2 ->
  crawl_api' client order1 years = crawl_api' client order2 years.
Proof.
  intros H1 H2. apply injective_projections; [|done].
  by rewrite !crawl_complete.
Qed.

End CrawlMore.

(** ** The command-line crawler *)

Section CliFacts.

Variable raw_item : Type.
Variable model_validate : raw_item -> option OscarFilm.

Abbreviation cli_fetch := (Cli.fetch_year raw_item model_validate).
Abbreviation cli_crawl := (Cli.crawl_oscar_films_ajax raw_item model_validate).
Abbreviation cli_outs client ys := ((Cli.tasks raw_item model_validate client ys).*1).

Lemma cli_outs_lookup (client : Client raw_item) ys slot :
  cli_outs client ys !! slot = (fun y => attempt_once raw_item model_validate client slot y 1)
                                 <$> ys !! slot.
Proof.
  unfold Cli.tasks. rewrite list_lookup_fmap, list_lookup_imap.
  by destruct (ys !! slot).
Qed.

Lemma cli_outs_length (client : Client raw_item) ys :
  length (cli_outs client ys) = length ys.
Proof. unfold Cli.tasks. by rewrite length_fmap, length_imap. Qed.

Lemma cli_logs (client : Client raw_item) ys :
  (Cli.tasks raw_item model_validate client ys).*2 = (fun y => [EvGet y 1]) <$> ys.
Proof.
  apply list_eq. intros i. unfold Cli.tasks.
  rewrite !list_lookup_fmap, list_lookup_imap. by destruct (ys !! i).
Qed.

Lemma flatten_returned (outs : list (outcome (list OscarFilm))) :
  Forall (fun o => is_raised o = false) outs ->
  Cli.flatten outs = Returned (Selenium.records outs).
Proof.
  induction 1 as [|[fs|e] outs Ho _ IH]; [done| |done]. cbn. by rewrite IH.
Qed.

Lemma cli_gather_all_returned (client : Client raw_item) order ys :
  complete_order (length ys) order ->
  Forall (fun o => is_raised o = false) (cli_outs client ys) ->
  match gather false (cli_outs client ys) order with
  | None => None
  | Some (Raised e) => Some (Raised e)
  | Some (Returned results) => Some (Cli.flatten results)
  end = Some (Returned (Selenium.records (cli_outs client ys))).
Proof.
  intros Hord Hall.
  rewrite gather_complete by (by rewrite cli_outs_length). cbn [trip].
  destruct (first_raised _ order) as [e|] eqn:Hfirst.
  - apply first_raised_Some in Hfirst as (i & _ & Hi).
    rewrite Forall_lookup in Hall. by specialize (Hall i _ Hi).
  - by rewrite flatten_returned.
Qed.

(** X6. The command-line crawl makes exactly one request per year and never
    retries; with every task over it returns the films of all years in order
    when no request failed, and otherwise raises the exception of the year
    that failed first in finishing order. *)
Theorem cli_crawl_single_request_first_failure
    (client : Client raw_item) order years :
  complete_order (length (years_or_default years)) order ->
  (cli_crawl client order years).2
    = (fun y => [EvGet y 1]) <$> years_or_default years /\
  (cli_crawl client order years).1 =
    Some match first_raised (cli_outs client (years_or_default years)) order with
         | Some e => Raised e
         | None => Returned (Selenium.records (cli_outs client (years_or_default years)))
         end.
Proof.
  intros Hord. unfold Cli.crawl_oscar_films_ajax. cbn [fst snd].
  split; [apply cli_logs|].
  rewrite gather_complete by (by rewrite cli_outs_length). cbn [trip].
  destruct (first_raised _ order) eqn:Hfirst; [done|].
  f_equal. apply flatten_returned.
  apply (first_raised_None_all _ order); [by rewrite cli_outs_length|done].
Qed.

Lemma first_attempt_returned (client : Client raw_item) slot y fs :
  attempt_once raw_item model_validate client slot y 1 = Returned fs ->
  (fetch_year raw_item model_validate client slot y).1 = Returned fs.
Proof. intros H. by rewrite fetch_year_cases, H. Qed.

(** X7. Whenever the command-line crawl returns films, the crawl of the API
    in direct mode, on the same answers of the network, returns the same
    films, in whatever order its own tasks finish. *)
Theorem api_crawl_agrees_with_cli_success
    (repr : exn -> string) (client : Client raw_item) order order' years fs :
  complete_order (length (years_or_default years)) order ->
  complete_order (length (years_or_default years)) order' ->
  (cli_crawl client order years).1 = Some (Returned fs) ->
  (crawl_oscar_films raw_item model_validate repr client order' years).1
    = Some (Returned fs).
Proof.
  intros Hord Hord' Hcli.
  set (ys := years_or_default years) in *.
  assert (Hall : Forall (fun o => is_raised o = false) (cli_outs client ys)).
  { unfold Cli.crawl_oscar_films_ajax in Hcli. cbn [fst] in Hcli. fold ys in Hcli.
    rewrite gather_complete in Hcli by (by rewrite cli_outs_length).
    cbn [trip] in Hcli.
    destruct (first_raised _ order) eqn:Hfirst; [done|].
    apply (first_raised_None_all _ order); [by rewrite cli_outs_length|done]. }
  assert (Hfs : fs = Selenium.records (cli_outs client ys)).
  { pose proof (cli_gather_all_returned client order ys Hord Hall) as Heq.
    unfold Cli.crawl_oscar_films_ajax in Hcli. cbn [fst] in Hcli. fold ys in Hcli.
    rewrite Heq in Hcli. by injection Hcli as <-. }
  assert (Hsame : (tasks raw_item model_validate client ys).*1 = cli_outs client ys).
  { apply list_eq. intros slot. rewrite results_lookup, cli_outs_lookup.
    destruct (ys !! slot) as [y|] eqn:Hy; [|done]. cbn. f_equal.
    rewrite Forall_lookup in Hall.
    specialize (Hall slot (attempt_once raw_item model_validate client slot y 1)).
    rewrite cli_outs_lookup, Hy in Hall. specialize (Hall eq_refl).
    destruct (attempt_once raw_item model_validate client slot y 1) as [fs'|e] eqn:Ha;
      [|done].
    by apply first_attempt_returned. }
  rewrite crawl_complete by done. cbn zeta. fold ys. rewrite Hsame.
  rewrite failures_none by done.
  rewrite successes_zip_records by (by rewrite cli_outs_length).
  rewrite <- Hfs. by destruct fs.
Qed.

End CliFacts.

(** ** The table scrape *)

Section ScrapeFacts.

Import Scrape.

Variable strip : string -> string.
Variable int_of_str : string -> option Z.

Abbreviation row_film := (scrape_row strip int_of_str).
Abbreviation scrape := (_scrape_current_table strip int_of_str).

Lemma scrape_row_shows y row film :
  row_film y row = Returned film <-> shows strip int_of_str y row film.
Proof.
  unfold scrape_row, shows, cell_text, int, make_film.
  destruct (film_title row) as [t|]; cbn.
  2:{ split; [done|]. by intros (? & ? & ? & ? & ? & ? & _). }
  destruct (film_nominations row) as [n|]; cbn.
  2:{ split; [done|]. by intros (? & ? & ? & ? & ? & _ & ? & _). }
  destruct (int_of_str n) as [N|] eqn:HN; cbn.
  2:{ split; [done|]. intros (? & ? & ? & ? & ? & _ & [= <-] & ? & _). congruence. }
  destruct (film_awards row) as [a|]; cbn.
  2:{ split; [done|]. by intros (? & ? & ? & ? & ? & _ & _ & _ & ? & _). }
  destruct (int_of_str a) as [A|] eqn:HA; cbn.
  2:{ split; [done|].
      intros (? & ? & ? & ? & ? & _ & _ & _ & [= <-] & ? & _). congruence. }
  split.
  - intros [= <-]. by exists t, n, a, N, A.
  - intros (? & ? & ? & ? & ? & [= <-] & [= <-] & HN' & [= <-] & HA' & ->).
    rewrite HN in HN'. rewrite HA in HA'. by injection HN' as <-; injection HA' as <-.
Qed.

Lemma scrape_rows_returned y rows : forall acc fs,
  scrape_rows strip int_of_str y acc rows = Returned fs ->
  exists new, fs = acc ++ new /\ Forall2 (fun row film => row_film y row = Returned film) rows new.
Proof.
  induction rows as [|row rows IH]; intros acc fs; cbn.
  - intros [= <-]. exists []. by rewrite app_nil_r.
  - destruct (row_film y row) as [film|e] eqn:Hrow; cbn; [|done].
    intros (new & -> & Hnew)%IH. exists (film :: new).
    rewrite <- app_assoc. split; [done|]. by constructor.
Qed.

Lemma scrape_rows_raised y rows : forall acc i row e,
  rows !! i = Some row ->
  row_film y row = Raised e ->
  exists j row' e',
    (j <= i)%nat /\ rows !! j = Some row' /\ row_film y row' = Raised e' /\
    scrape_rows strip int_of_str y acc rows = Raised e'.
Proof.
  induction rows as [|r rows IH]; intros acc i row e Hi He; [done|].
  cbn [scrape_rows].
  destruct (row_film y r) as [film|e0] eqn:Hr; cbn.
  - destruct i as [|i]; [cbn in Hi; congruence|]. cbn in Hi.
    destruct (IH (acc ++ [film]) i row e Hi He) as (j & row' & e' & ? & ? & ? & ?).
    exists (S j), row', e'. repeat split; try done. lia.
  - exists 0%nat, r, e0. repeat split; try done. lia.
Qed.

(** X8. When the scrape of a table returns, it returns one film per row of
    the table, in row order and never none: each film carries the year
    asked for, the stripped title, the two counts read as integers and the
    flag of its row. *)
Theorem scrape_returns_one_film_per_row rows y fs :
  _scrape_current_table strip int_of_str rows y = Returned fs ->
  fs ≠ [] /\
  length fs = length rows /\
  Forall2 (shows strip int_of_str y) rows fs /\
  Forall (fun film => year film = y) fs.
Proof.
  intros H.
  assert (Hne : rows ≠ []) by (by intros ->).
  assert (Hs : scrape_rows strip int_of_str y [] rows = Returned fs).
  { unfold _scrape_current_table in H. by destruct rows. }
  apply scrape_rows_returned in Hs as (new & -> & Hnew). cbn [app].
  assert (Hshows : Forall2 (shows strip int_of_str y) rows new).
  { eapply Forall2_impl; [exact Hnew|]. intros r f. apply scrape_row_shows. }
  split; [intros ->; by inversion Hshows|].
  split; [symmetry; by eapply Forall2_length|].
  split; [done|].
  clear -Hshows. induction Hshows as [|r f rs fs' Hrf _ IH]; constructor; [|done].
  destruct Hrf as (? & ? & ? & ? & ? & _ & _ & _ & _ & _ & ->). done.
Qed.

(** X9. One row that cannot be read (a missing cell, a count that is no
    number) loses the whole table: the scrape raises the exception of the
    first such row and returns no film of the other rows. *)
Theorem scrape_bad_row_loses_table rows y i row e :
  rows !! i = Some row ->
  scrape_row strip int_of_str y row = Raised e ->
  exists j row' e',
    (j <= i)%nat /\ rows !! j = Some row' /\
    scrape_row strip int_of_str y row' = Raised e' /\
    _scrape_current_table strip int_of_str rows y = Raised e'.
Proof.
  intros Hi He.
  assert (scrape rows y = scrape_rows strip int_of_str y [] rows) as ->.
  { unfold _scrape_current_table. by destruct rows. }
  by apply (scrape_rows_raised y rows [] i row e).
Qed.

(** X10. A browser fetch whose session scrapes its table with the shared
    routine never succeeds with an empty list: when it returns, it returns at
    least one film, and every film carries the year that was fetched. *)
Theorem browser_fetch_returns_films_of_its_year
    (web : Selenium.Web) slot y driver rows fs :
  Selenium.fetch_driver web slot y = Returned driver ->
  Selenium.scrape_current_table driver y
    = _scrape_current_table strip int_of_str rows y ->
  Selenium._fetch_year_selenium web slot y = Returned fs ->
  fs ≠ [] /\ Forall (fun film => year film = y) fs.
Proof.
  intros Hdriver Hscrape. unfold Selenium._fetch_year_selenium. rewrite Hdriver. cbn.
  destruct (Selenium.wait_year_id driver y); [|done]. cbn.
  destruct (Selenium.click_year driver y); [|done]. cbn.
  rewrite Hscrape. intros Hfs.
  assert (Hs : scrape_rows strip int_of_str y [] rows = Returned fs /\ rows ≠ []).
  { unfold _scrape_current_table in Hfs. by destruct rows. }
  destruct Hs as [Hs Hrows].
  apply scrape_rows_returned in Hs as (new & -> & Hnew). cbn [app].
  split; [intros ->; by inversion Hnew|].
  clear -Hnew. induction Hnew as [|r' f rs fs' Hrf _ IH]; constructor; [|done].
  apply scrape_row_shows in Hrf.
  destruct Hrf as (? & ? & ? & ? & ? & _ & _ & _ & _ & _ & ->). done.
Qed.

End ScrapeFacts.

(** ** Discovery *)

Section DiscoveryFacts.

Import Selenium Discovery.

Variable int_of_str : string -> option Z.

Abbreviation discover' := (_discover_years_and_first_page int_of_str).
Abbreviation years_of := (parsed_years int_of_str).
Abbreviation marked := (active_years int_of_str).

Lemma scan_link_year acc link :
  scan_link int_of_str acc link =
  match link_year int_of_str link with
  | None => acc
  | Some year_int =>
      (acc.1 ++ [year_int],
       if bool_decide ("active" ∈ link_classes link) then Some year_int else acc.2)
  end.
Proof.
  unfold scan_link, link_year. destruct (link_id link) as [year_id|]; [|done].
  by destruct (bool_decide (year_id = "")).
Qed.

(** The loop over the anchors keeps the years in anchor order, and the last
    anchor marked active. *)
Lemma scan_links links : forall ys a,
  foldl (scan_link int_of_str) (ys, a) links =
  (ys ++ years_of links,
   match last (marked links) with Some y => Some y | None => a end).
Proof.
  induction links as [|link links IH]; intros ys a.
  { cbn. by rewrite app_nil_r. }
  cbn [foldl]. rewrite scan_link_year.
  unfold parsed_years, active_years. cbn [omap list_omap].
  fold (parsed_years int_of_str links). fold (active_years int_of_str links).
  destruct (link_year int_of_str link) as [yr|] eqn:Hyr.
  - rewrite IH. cbn [fst snd]. rewrite <- app_assoc. cbn [app]. f_equal.
    destruct (bool_decide ("active" ∈ link_classes link)).
    + cbn [mbind option_bind]. rewrite last_cons. by destruct (last (marked links)).
    + done.
  - rewrite IH. f_equal.
    by destruct (bool_decide ("active" ∈ link_classes link)).
Qed.

Lemma marked_are_years links y : y ∈ marked links -> y ∈ years_of links.
Proof.
  unfold active_years, parsed_years. rewrite !list_elem_of_omap.
  intros (link & Hin & Hy). exists link. split; [done|].
  by destruct (bool_decide ("active" ∈ link_classes link)).
Qed.

(** X11. When discovery returns, the years it found are the numeric ids of
    the anchors, in page order; the active year is the year of the last
    anchor marked active, or the first year found when no anchor is marked;
    it is one of the years found, and the films are the table scraped after
    clicking it. *)
Theorem discovery_result_shape (web : Web) years_found active_year first_films :
  discover' web = Returned (years_found, active_year, first_films) ->
  exists driver links,
    discovery_driver web = Returned driver /\
    wait_year_links driver = Returned links /\
    years_found = years_of links /\
    Some active_year = match last (marked links) with
                       | Some y => Some y
                       | None => head years_found
                       end /\
    active_year ∈ years_found /\
    click_year driver active_year = Returned tt /\
    scrape_current_table driver active_year = Returned first_films.
Proof.
  unfold _discover_years_and_first_page.
  destruct (discovery_driver web) as [driver|e] eqn:Hdriver; [|done]. cbn.
  destruct (wait_year_links driver) as [links|e] eqn:Hlinks; [|by destruct e]. cbn.
  rewrite scan_links. cbn [app].
  destruct (years_of links) as [|first rest] eqn:Hyears; [done|].
  destruct (click_year driver _) as [[]|e] eqn:Hclick; [|done]. cbn.
  destruct (scrape_current_table driver _) as [fs|e] eqn:Hscrape; [|done]. cbn.
  intros [= <- <- <-]. exists driver, links.
  split; [done|]. split; [done|]. split; [done|].
  destruct (last (marked links)) as [y|] eqn:Hlast; cbn in *.
  - split; [done|]. split; [|done].
    rewrite <- Hyears. by apply marked_are_years, last_Some_elem_of.
  - split; [done|]. split; [by left|done].
Qed.

(** X12. When the anchors of the page give no year (the wait for anchors
    times out, or no anchor has a numeric id), discovery raises a
    [RuntimeError], and the crawl without explicit years raises it having
    opened the discovery session and no other. *)
Theorem discovery_without_years_fails (web : Web) order driver :
  discovery_driver web = Returned driver ->
  wait_year_links driver = Raised TimeoutException \/
  (exists links, wait_year_links driver = Returned links /\ years_of links = []) ->
  exists msg,
    discover' web = Raised (RuntimeError msg) /\
    crawl_oscar_films_selenium int_of_str web order None
      = (Some (Raised (RuntimeError msg)), [EvDiscover]).
Proof.
  intros Hdriver Hcases.
  assert (Hd : exists msg, discover' web = Raised (RuntimeError msg)).
  { unfold _discover_years_and_first_page. rewrite Hdriver. cbn.
    destruct Hcases as [->|(links & -> & Hnone)]; cbn; [eauto|].
    rewrite scan_links, Hnone. cbn. eauto. }
  destruct Hd as [msg Hd]. exists msg. split; [done|].
  cbn [crawl_oscar_films_selenium]. by rewrite Hd.
Qed.

End DiscoveryFacts.

(** ** The lifecycle of jobs *)

Section LifecycleFacts.

Import Jobs Lifecycle.

Variable raw_item : Type.
Variable model_validate : raw_item -> option OscarFilm.
Variable repr : exn -> string.
Variable int_of_str : string -> option Z.
Variable DATA_DIR : string.

Abbreviation step'' := (step raw_item model_validate repr int_of_str DATA_DIR).
Abbreviation reachable'' := (reachable raw_item model_validate repr int_of_str DATA_DIR).
Abbreviation tracked' := (tracked DATA_DIR).
Abbreviation all_tracked' := (all_tracked DATA_DIR).
Abbreviation run_job' := (_run_crawl_job raw_item model_validate repr int_of_str DATA_DIR).

Lemma try_body_cases (w : World raw_item) id crawled :
  (exists fs, crawled = Returned fs /\
     write_text w (_job_file_path DATA_DIR id) = Returned tt /\
     try_body raw_item DATA_DIR w id crawled = Returned (fs, _job_file_path DATA_DIR id)) \/
  (exists exc, try_body raw_item DATA_DIR w id crawled = Raised exc).
Proof.
  unfold try_body. destruct crawled as [fs|e]; cbn; [|eauto].
  destruct (write_text w (_job_file_path DATA_DIR id)) as [[]|e]; cbn; eauto.
Qed.

Lemma all_tracked_initial : all_tracked' initial.
Proof. intros id. unfold tracked, initial. cbn. by rewrite !lookup_empty. Qed.

Lemma all_tracked_step s s' : step'' s s' -> all_tracked' s -> all_tracked' s'.
Proof.
  intros Hstep Hall id'.
  destruct Hstep as [s uuid now body job js t Hnew Htrig
                    |s id m ys now job js Htask Hstart
                    |s id m ys now job w crawled Htask Hcrawl].
  - unfold trigger_oscar_crawl in Htrig. injection Htrig as <- <- <-.
    unfold tracked. cbn [jobs background].
    destruct (decide (uuid = id')) as [->|Hne].
    + rewrite !lookup_insert_eq. eexists. by repeat split.
    + rewrite !lookup_insert_ne by done. apply Hall.
  - unfold run_start in Hstart.
    destruct (jobs s !! id) as [job0|] eqn:Hjob; [|done].
    injection Hstart as <- <-.
    unfold tracked. cbn [jobs background].
    destruct (decide (id = id')) as [->|Hne].
    + rewrite !lookup_insert_eq.
      pose proof (Hall id') as Ht. unfold tracked in Ht. rewrite Htask, Hjob in Ht.
      destruct Ht as (j & Heq & Hfresh & Hid & Hfile). injection Heq as <-.
      split; [done|]. split; [done|]. split; [done|]. by exists now.
    + rewrite !lookup_insert_ne by done. apply Hall.
  - unfold tracked. cbn [jobs background].
    destruct (decide (id = id')) as [->|Hne].
    + rewrite lookup_insert_eq, run_finish_lookup.
      pose proof (Hall id') as Ht. unfold tracked in Ht. rewrite Htask in Ht.
      destruct Ht as (Hfresh & Hid & Hfile & now0 & Hjob).
      eexists. split; [done|].
      destruct (try_body_cases w id' crawled) as [(fs & _ & _ & ->)|(exc & ->)].
      * repeat split; try done; by left.
      * repeat split; try done; by right.
    + rewrite lookup_insert_ne, run_finish_other by done. apply Hall.
Qed.

Lemma reachable_all_tracked s : reachable'' s -> all_tracked' s.
Proof.
  revert s. apply (rtc_ind_r all_tracked' initial).
  - apply all_tracked_initial.
  - intros s s' _ Hstep IH. by apply (all_tracked_step s s').
Qed.

(** X13. In every state the service can reach, the job stored under an id
    carries that id; a completed job names the result file of its id, and a
    job in any other status names no file. *)
Theorem stored_job_identity_and_file s id j :
  reachable raw_item model_validate repr int_of_str DATA_DIR s ->
  jobs s !! id = Some j ->
  job_id j = id /\
  (status j = completed -> data_file j = Some (_job_file_path DATA_DIR id)) /\
  (status j ≠ completed -> data_file j = None).
Proof.
  intros Hreach Hj. pose proof (reachable_all_tracked s Hreach id) as Ht.
  unfold tracked in Ht. rewrite Hj in Ht.
  destruct (background s !! id) as [[m ys|job m ys|]|].
  - destruct Ht as (j' & [= <-] & (Hs & _) & Hid & Hfile).
    split; [done|]. split; [by rewrite Hs|done].
  - destruct Ht as (_ & Hid & Hfile & now & [= ->]). cbn.
    split; [done|]. split; done.
  - destruct Ht as (j' & [= <-] & Hterm & Hid & Hc & Hf).
    split; [done|]. split; [done|]. intros Hnc. apply Hf.
    by destruct Hterm.
  - done.
Qed.

(** One step never removes a job, moves its status back, or changes its id
    or creation time; a job that is over is left as it is. *)
Lemma step_progress s s' id j :
  step'' s s' -> all_tracked' s -> jobs s !! id = Some j ->
  exists j', jobs s' !! id = Some j' /\
    (rank (status j) <= rank (status j'))%nat /\
    created_at j' = created_at j /\ job_id j' = job_id j /\
    (terminal j -> j' = j).
Proof.
  intros Hstep Hall Hj.
  destruct Hstep as [s uuid now body job js t Hnew Htrig
                    |s id0 m ys now job js Htask Hstart
                    |s id0 m ys now job w crawled Htask Hcrawl].
  - unfold trigger_oscar_crawl in Htrig. injection Htrig as <- <- <-.
    cbn [jobs]. exists j. rewrite lookup_insert_ne by congruence. auto.
  - unfold run_start in Hstart.
    destruct (jobs s !! id0) as [job0|] eqn:Hjob; [|done].
    injection Hstart as <- <-. cbn [jobs].
    destruct (decide (id0 = id)) as [->|Hne].
    + rewrite lookup_insert_eq. assert (job0 = j) as -> by congruence.
      pose proof (Hall id) as Ht. unfold tracked in Ht. rewrite Htask, Hj in Ht.
      destruct Ht as (j' & [= <-] & (Hs & _) & _).
      eexists. split; [done|]. cbn. rewrite Hs. cbn.
      repeat split; try done; try lia. intros [?|?]; congruence.
    + rewrite lookup_insert_ne by done. exists j. auto.
  - cbn [jobs]. destruct (decide (id0 = id)) as [->|Hne].
    + rewrite run_finish_lookup.
      pose proof (Hall id) as Ht. unfold tracked in Ht. rewrite Htask, Hj in Ht.
      destruct Ht as (_ & _ & _ & now0 & [= ->]).
      eexists. split; [done|].
      destruct (try_body _ _ w id crawled) as [[fs file_path]|exc]; cbn;
        (repeat split; try done; try lia); intros [?|?]; done.
    + rewrite run_finish_other by done. exists j. auto.
Qed.

Lemma steps_progress s s' id j :
  all_tracked' s -> rtc step'' s s' -> jobs s !! id = Some j ->
  all_tracked' s' /\
  exists j', jobs s' !! id = Some j' /\
    (rank (status j) <= rank (status j'))%nat /\
    created_at j' = created_at j /\ job_id j' = job_id j /\
    (terminal j -> j' = j).
Proof.
  intros Hall Hsteps Hj. revert s' Hsteps.
  apply (rtc_ind_r (fun s' => all_tracked' s' /\
    exists j', jobs s' !! id = Some j' /\
      (rank (status j) <= rank (status j'))%nat /\
      created_at j' = created_at j /\ job_id j' = job_id j /\
      (terminal j -> j' = j)) s).
  - split; [done|]. exists j. auto.
  - intros s1 s2 _ Hstep (Hall1 & j1 & Hj1 & Hrank & Hcreated & Hid & Hterm).
    split; [by apply (all_tracked_step s1 s2)|].
    destruct (step_progress s1 s2 id j1 Hstep Hall1 Hj1)
      as (j2 & Hj2 & Hrank2 & Hcreated2 & Hid2 & Hterm2).
    exists j2. split; [done|]. split; [lia|]. split; [congruence|].
    split; [congruence|]. intros Ht. specialize (Hterm Ht). subst j1. by apply Hterm2.
Qed.

(** X14. Once a job is stored it stays stored, under the same id and with the
    same creation time, and its status only moves forward: from pending to
    running to completed or failed, never back. *)
Theorem job_status_only_moves_forward s s' id j :
  reachable raw_item model_validate repr int_of_str DATA_DIR s ->
  rtc (step raw_item model_validate repr int_of_str DATA_DIR) s s' ->
  jobs s !! id = Some j ->
  exists j', jobs s' !! id = Some j' /\
    (rank (status j) <= rank (status j'))%nat /\
    created_at j' = created_at j /\
    job_id j' = job_id j.
Proof.
  intros Hreach Hsteps Hj.
  destruct (steps_progress s s' id j (reachable_all_tracked s Hreach) Hsteps Hj)
    as (_ & j' & ? & ? & ? & ? & _).
  exists j'. auto.
Qed.

(** X15. A job that is completed or failed is final: whatever the service
    does afterwards, the stored snapshot of that job is the same. *)
Theorem terminal_job_is_final s s' id j :
  reachable raw_item model_validate repr int_of_str DATA_DIR s ->
  rtc (step raw_item model_validate repr int_of_str DATA_DIR) s s' ->
  jobs s !! id = Some j ->
  terminal j ->
  jobs s' !! id = Some j.
Proof.
  intros Hreach Hsteps Hj Hterm.
  destruct (steps_progress s s' id j (reachable_all_tracked s Hreach) Hsteps Hj)
    as (_ & j' & Hj' & _ & _ & _ & Hsame).
  by rewrite Hj', (Hsame Hterm).
Qed.


(** X17. When the crawl returned its films but writing the result file
    raises, the run ends normally and the job is stored as failed, with the
    [repr] of that exception as its error; the films are not kept. *)
Theorem write_failure_fails_job (w : World raw_item) js id m ys now1 now2 job fs exc :
  js !! id = Some job ->
  films job = None ->
  run_crawl raw_item model_validate repr int_of_str w m ys = Some (Returned fs) ->
  write_text w (_job_file_path DATA_DIR id) = Raised exc ->
  exists js',
    run_job' w js id m ys now1 now2 = Some (Returned tt, js') /\
    js' !! id = Some (copy_failed repr job now2 exc) /\
    status (copy_failed repr job now2 exc) = failed /\
    error (copy_failed repr job now2 exc) = Some (repr exc) /\
    films (copy_failed repr job now2 exc) = None.
Proof.
  intros Hjob Hfilms Hcrawl Hwrite. eexists. split.
  - unfold _run_crawl_job, run_start. rewrite Hjob, Hcrawl. reflexivity.
  - rewrite run_finish_lookup. unfold try_body. cbn. rewrite Hwrite. cbn.
    by repeat split.
Qed.

End LifecycleFacts.

(** ** A job from submission to its end *)

Section JobRuns.

Import Jobs Lifecycle.

Variable raw_item : Type.
Variable model_validate : raw_item -> option OscarFilm.
Variable repr : exn -> string.
Variable int_of_str : string -> option Z.
Variable DATA_DIR : string.

Abbreviation run_job'' := (_run_crawl_job raw_item model_validate repr int_of_str DATA_DIR).

(** X18. A job submitted in direct mode whose crawl collected at least one
    film ends completed even when some partitions failed: it holds the films
    of the partitions that succeeded, their number as [total_films], the path
    of its result file, and no error; the failures are recorded nowhere. *)
Theorem ajax_job_completes_on_partial_failure
    (w : World raw_item) js uuid now body now1 now2 :
  mode body = ajax ->
  complete_order (length (years_or_default (years body))) (order w) ->
  successes (zip (years_or_default (years body))
                 ((tasks raw_item model_validate (client w)
                     (years_or_default (years body))).*1)) ≠ [] ->
  write_text w (_job_file_path DATA_DIR uuid) = Returned tt ->
  let fs := successes (zip (years_or_default (years body))
                           ((tasks raw_item model_validate (client w)
                               (years_or_default (years body))).*1)) in
  let '(job, js1, _) := trigger_oscar_crawl js uuid now body in
  exists js2 j,
    run_job'' w js1 uuid (mode body) (years body) now1 now2 = Some (Returned tt, js2) /\
    get_results js2 uuid = Some j /\
    status j = completed /\
    films j = Some fs /\
    total_films j = Z.of_nat (length fs) /\
    data_file j = Some (_job_file_path DATA_DIR uuid) /\
    error j = None /\
    created_at j = now /\ updated_at j = now2.
Proof.
  intros Hmode Hord Hne Hwrite. cbn zeta. cbn [trigger_oscar_crawl].
  set (fs := successes _) in *.
  assert (Hcrawl : run_crawl raw_item model_validate repr int_of_str w (mode body)
                     (years body) = Some (Returned fs)).
  { rewrite Hmode. cbn [run_crawl]. by apply partial_success_with_records. }
  eexists. eexists. split.
  - unfold _run_crawl_job, run_start. rewrite lookup_insert_eq, Hcrawl. reflexivity.
  - unfold get_results. rewrite run_finish_lookup. unfold try_body. cbn.
    rewrite Hwrite. cbn. by repeat split.
Qed.

(** X19. A job submitted in browser mode with explicit years ends failed as
    soon as one year cannot be fetched, whatever the other years gave: its
    error is the [repr] of the exception of one failing year, and it holds no
    films. *)
Theorem selenium_job_fails_on_any_failure
    (w : World raw_item) js uuid now ys now1 now2 slot y e0 :
  complete_order (length ys) (order w) ->
  ys !! slot = Some y ->
  Selenium._fetch_year_selenium (web w) slot y = Raised e0 ->
  let '(job, js1, _) :=
    trigger_oscar_crawl js uuid now {| mode := selenium; years := Some ys |} in
  exists js2 j slot' y' e,
    run_job'' w js1 uuid selenium (Some ys) now1 now2 = Some (Returned tt, js2) /\
    get_results js2 uuid = Some j /\
    ys !! slot' = Some y' /\
    Selenium._fetch_year_selenium (web w) slot' y' = Raised e /\
    status j = failed /\
    error j = Some (repr e) /\
    films j = None /\
    total_films j = 0.
Proof.
  intros Hord Hy He0. cbn [trigger_oscar_crawl mode years].
  assert (Hfirst : exists e, first_raised (imap (Selenium._fetch_year_selenium (web w)) ys)
                               (order w) = Some e).
  { destruct (first_raised _ (order w)) as [e|] eqn:Hfirst; [eauto|]. exfalso.
    assert (Hall : Forall (fun o => is_raised o = false)
                     (imap (Selenium._fetch_year_selenium (web w)) ys)).
    { apply (first_raised_None_all _ (order w)); [by rewrite length_imap|done]. }
    rewrite Forall_lookup in Hall.
    specialize (Hall slot (Raised e0)).
    rewrite list_lookup_imap, Hy in Hall. cbn in Hall. rewrite He0 in Hall.
    by specialize (Hall eq_refl). }
  destruct Hfirst as [e Hfirst].
  assert (Hcrawl : run_crawl raw_item model_validate repr int_of_str w selenium (Some ys)
                   = Some (Raised e)).
  { cbn [run_crawl]. unfold Jobs.crawl_oscar_films_selenium.
    cbn [Selenium.crawl_oscar_films_selenium fst].
    by rewrite fetch_all_complete, Hfirst. }
  apply first_raised_Some in Hfirst as (slot' & _ & Hslot').
  rewrite list_lookup_imap in Hslot'.
  destruct (ys !! slot') as [y'|] eqn:Hy'; [|done]. cbn in Hslot'.
  injection Hslot' as Hslot'.
  eexists. eexists. exists slot', y', e. split.
  - unfold _run_crawl_job, run_start. rewrite lookup_insert_eq, Hcrawl. reflexivity.
  - unfold get_results. rewrite run_finish_lookup. cbn. by repeat split.
Qed.

End JobRuns.

(** ** Worked runs for the further properties *)

Section MoreRuns.

Import Scenario.

Abbreviation fetch_demo := (fetch_year (option OscarFilm) validate).
Abbreviation crawl_demo := (crawl_oscar_films (option OscarFilm) validate repr_class).
Abbreviation cli_demo := (Cli.crawl_oscar_films_ajax (option OscarFilm) validate).

Lemma transient_error_witness :
  gets (fetch_demo client_down 0%nat 2010).2 = [1; 2; 3] /\
  Forall2 Qeq (sleeps (fetch_demo client_down 0%nat 2010).2) [1 # 2; 1]%Q /\
  attempt_once (option OscarFilm) validate client_down 0%nat 2010 3
    = Raised (RequestError "ReadTimeout").
Proof.
  apply (transient_error_only_after_three_attempts (option OscarFilm) validate
           client_down 0%nat 2010 (RequestError "ReadTimeout")); reflexivity.
Defined.

Lemma validated_payload_witness :
  exists (k : nat) r items,
    (1 <= k <= 3)%nat /\
    client_404_then_ok 0%nat 2010 (Z.of_nat k) = GetResponse r /\
    200 <= status_code r <= 299 /\
    body r = Some (Iterable items) /\
    mapM validate items = Some [inception] /\
    length [inception] = length items /\
    gets (fetch_demo client_404_then_ok 0%nat 2010).2 = take k [1; 2; 3].
Proof.
  apply (fetch_year_returns_validated_payload (option OscarFilm) validate
           client_404_then_ok 0%nat 2010 [inception]).
  reflexivity.
Defined.

(** Years outside 2010-2015 and repeated years are fetched as given. *)
Lemma own_year_witness :
  length (crawl_demo client_down [0; 1]%nat (Some [1999; 1999])).2
    = length (years_or_default (Some [1999; 1999])) /\
  exists t, (crawl_demo client_down [0; 1]%nat (Some [1999; 1999])).2 !! 1%nat = Some t /\
    head t = Some (EvGet 1999 1) /\
    (1 <= length (gets t) <= 3)%nat /\
    Forall (for_year 1999) t.
Proof.
  apply (each_task_requests_its_own_year (option OscarFilm) validate repr_class
           client_down [0; 1]%nat (Some [1999; 1999]) 1%nat 1999).
  reflexivity.
Defined.

Lemma all_succeed_witness :
  exists fss,
    (tasks (option OscarFilm) validate client_ok (years_or_default (Some [2010; 2011]))).*1
      = Returned <$> fss /\
    (crawl_demo client_ok [1; 0]%nat (Some [2010; 2011])).1
      = Some (Returned (concat fss)).
Proof.
  apply (all_partitions_succeed_returns_all (option OscarFilm) validate repr_class
           client_ok [1; 0]%nat (Some [2010; 2011])).
  - exact order_10.
  - intros slot y _. reflexivity.
Defined.

Lemma completion_order_witness :
  crawl_demo client_empty_then_down [0; 1]%nat (Some [2010; 2011])
  = crawl_demo client_empty_then_down [1; 0]%nat (Some [2010; 2011]).
Proof.
  apply (crawl_independent_of_completion_order (option OscarFilm) validate repr_class
           client_empty_then_down [0; 1]%nat [1; 0]%nat (Some [2010; 2011])).
  - exact order_01.
  - exact order_10.
Defined.

(** The command line does not retry the 404 that the API retries. *)
Lemma cli_crawl_witness :
  cli_demo client_404_then_ok [1; 0]%nat (Some [2010; 2011])
  = (Some (Raised (HTTPStatusError 404)), [[EvGet 2010 1]; [EvGet 2011 1]]).
Proof.
  destruct (cli_crawl_single_request_first_failure (option OscarFilm) validate
              client_404_then_ok [1; 0]%nat (Some [2010; 2011]) order_10)
    as [Hlog Hres].
  apply injective_projections; [rewrite Hres|rewrite Hlog]; reflexivity.
Defined.

Lemma api_agrees_with_cli_witness :
  (crawl_demo client_ok [0; 1]%nat (Some [2010; 2011])).1
  = Some (Returned [inception; inception]).
Proof.
  apply (api_crawl_agrees_with_cli_success (option OscarFilm) validate repr_class
           client_ok [1; 0]%nat [0; 1]%nat (Some [2010; 2011]) [inception; inception]).
  - exact order_10.
  - exact order_01.
  - reflexivity.
Defined.

End MoreRuns.

Section MoreBrowserRuns.

Import Scenario Selenium Scrape.

Abbreviation scrape_demo := (_scrape_current_table strip_ascii int_of_digits).

(** The row [" Inception ", "8", "4", flag] gives the stripped title, the
    two numbers and a true flag. *)
Example scrape_two_rows :
  scrape_demo [row_inception; row_kings_speech] 2010
  = Returned [film_inception_2010; film_kings_speech_2010].
Proof. reflexivity. Qed.

Lemma scrape_rows_witness :
  [film_inception_2010; film_kings_speech_2010] ≠ [] /\
  length [film_inception_2010; film_kings_speech_2010]
    = length [row_inception; row_kings_speech] /\
  Forall2 (shows strip_ascii int_of_digits 2010) [row_inception; row_kings_speech]
          [film_inception_2010; film_kings_speech_2010] /\
  Forall (fun film => year film = 2010) [film_inception_2010; film_kings_speech_2010].
Proof.
  apply (scrape_returns_one_film_per_row strip_ascii int_of_digits
           [row_inception; row_kings_speech] 2010).
  reflexivity.
Defined.

Lemma scrape_bad_row_witness :
  exists j row' e',
    (j <= 1)%nat /\ [row_inception; row_garbled] !! j = Some row' /\
    scrape_row strip_ascii int_of_digits 2010 row' = Raised e' /\
    scrape_demo [row_inception; row_garbled] 2010 = Raised e'.
Proof.
  apply (scrape_bad_row_loses_table strip_ascii int_of_digits
           [row_inception; row_garbled] 2010 1%nat row_garbled
           (OtherError "ValueError")); reflexivity.
Defined.

Lemma browser_fetch_witness :
  [film_inception_2010] ≠ [] /\
  Forall (fun film => year film = 2010) [film_inception_2010].
Proof.
  apply (browser_fetch_returns_films_of_its_year strip_ascii int_of_digits
           (web_of_rows [row_inception]) 0%nat 2010
           (session_of_rows [row_inception]) [row_inception]); reflexivity.
Defined.

Lemma discovery_shape_witness :
  exists driver links,
    discovery_driver web_2011_stuck = Returned driver /\
    wait_year_links driver = Returned links /\
    [2015; 2014; 2013] = Discovery.parsed_years int_of_digits links /\
    Some 2015 = match last (Discovery.active_years int_of_digits links) with
                | Some y => Some y
                | None => head [2015; 2014; 2013]
                end /\
    2015 ∈ [2015; 2014; 2013] /\
    click_year driver 2015 = Returned tt /\
    scrape_current_table driver 2015 = Returned [film_of 2015].
Proof.
  apply (discovery_result_shape int_of_digits web_2011_stuck
           [2015; 2014; 2013] 2015 [film_of 2015]).
  reflexivity.
Defined.

Lemma discovery_no_years_witness :
  exists msg,
    _discover_years_and_first_page int_of_digits web_no_years
      = Raised (RuntimeError msg) /\
    crawl_oscar_films_selenium int_of_digits web_no_years [] None
      = (Some (Raised (RuntimeError msg)), [EvDiscover]).
Proof.
  apply (discovery_without_years_fails int_of_digits web_no_years [] session_no_years).
  - reflexivity.
  - right. eexists. split; reflexivity.
Defined.

End MoreBrowserRuns.

Section MoreTrackerRuns.

Import Scenario Jobs Lifecycle.

Abbreviation step_run :=
  (step (option OscarFilm) validate repr_class int_of_digits "/data").
Abbreviation reachable_run :=
  (reachable (option OscarFilm) validate repr_class int_of_digits "/data").
Abbreviation run_demo :=
  (_run_crawl_job (option OscarFilm) validate repr_class int_of_digits "/data").

Lemma state_submitted_reachable : reachable_run state_submitted.
Proof.
  apply rtc_once. unfold state_submitted.
  apply (step_submit _ _ _ _ _ initial "job-1" 100 request_2010_2011
           job_submitted (<["job-1" := job_submitted]> ∅)
           (Scheduled ajax (Some [2010; 2011]))).
  - apply lookup_empty.
  - reflexivity.
Defined.

Lemma steps_submitted_done : rtc step_run state_submitted state_done.
Proof.
  apply (rtc_l step_run state_submitted state_started).
  { unfold state_started.
    apply (step_start _ _ _ _ _ state_submitted "job-1" ajax (Some [2010; 2011]) 101
             job_submitted).
    - apply lookup_insert_eq.
    - unfold run_start, state_submitted. cbn [jobs].
      rewrite lookup_insert_eq. reflexivity. }
  apply rtc_once. unfold state_done.
  apply (step_finish _ _ _ _ _ state_started "job-1" ajax (Some [2010; 2011]) 105
           job_submitted world_up (Returned [inception; inception])).
  - apply lookup_insert_eq.
  - reflexivity.
Defined.

Lemma steps_done_second : rtc step_run state_done state_second_submitted.
Proof.
  apply rtc_once. unfold state_second_submitted.
  apply (step_submit _ _ _ _ _ state_done "job-2" 200
           {| mode := selenium; years := None |} job_2_submitted
           (<["job-2" := job_2_submitted]> (jobs state_done))
           (Scheduled selenium None)).
  - unfold state_done. cbn [jobs]. rewrite run_finish_other by done.
    unfold state_started, state_submitted. cbn [jobs].
    by rewrite !lookup_insert_ne, lookup_empty.
  - reflexivity.
Defined.

Lemma stored_job_witness :
  job_id job_done = "job-1" /\
  (status job_done = completed ->
     data_file job_done = Some (_job_file_path "/data" "job-1")) /\
  (status job_done ≠ completed -> data_file job_done = None).
Proof.
  exact (stored_job_identity_and_file (option OscarFilm) validate repr_class
           int_of_digits "/data" state_done "job-1" job_done
           state_done_reachable state_done_lookup).
Defined.

Lemma submitted_lookup : jobs state_submitted !! "job-1" = Some job_submitted.
Proof. unfold state_submitted. cbn [jobs]. apply lookup_insert_eq. Defined.

Lemma status_forward_witness :
  exists j', jobs state_done !! "job-1" = Some j' /\
    (rank (status job_submitted) <= rank (status j'))%nat /\
    created_at j' = created_at job_submitted /\
    job_id j' = job_id job_submitted.
Proof.
  exact (job_status_only_moves_forward (option OscarFilm) validate repr_class
           int_of_digits "/data" state_submitted state_done "job-1" job_submitted
           state_submitted_reachable steps_submitted_done submitted_lookup).
Defined.

Lemma terminal_final_witness :
  jobs state_second_submitted !! "job-1" = Some job_done.
Proof.
  apply (terminal_job_is_final (option OscarFilm) validate repr_class
           int_of_digits "/data" state_done state_second_submitted "job-1" job_done).
  - exact state_done_reachable.
  - exact steps_done_second.
  - exact state_done_lookup.
  - by left.
Defined.


Lemma write_failure_witness :
  exists js',
    run_demo world_disk_full (jobs state_submitted) "job-1" ajax (Some [2010; 2011])
      101 105 = Some (Returned tt, js') /\
    js' !! "job-1" = Some (copy_failed repr_class job_submitted 105 (OtherError "OSError")) /\
    status (copy_failed repr_class job_submitted 105 (OtherError "OSError")) = failed /\
    error (copy_failed repr_class job_submitted 105 (OtherError "OSError"))
      = Some (repr_class (OtherError "OSError")) /\
    films (copy_failed repr_class job_submitted 105 (OtherError "OSError")) = None.
Proof.
  apply (write_failure_fails_job (option OscarFilm) validate repr_class int_of_digits
           "/data" world_disk_full (jobs state_submitted) "job-1" ajax
           (Some [2010; 2011]) 101 105 job_submitted [inception; inception]
           (OtherError "OSError")).
  - exact submitted_lookup.
  - reflexivity.
  - reflexivity.
  - reflexivity.
Defined.

Lemma ajax_partial_job_witness :
  exists js2 j,
    run_demo world_partial (jobs state_submitted) "job-1" ajax (Some [2010; 2011])
      101 105 = Some (Returned tt, js2) /\
    get_results js2 "job-1" = Some j /\
    status j = completed /\
    films j = Some [inception] /\
    total_films j = 1 /\
    error j = None.
Proof.
  assert (H1 : mode request_2010_2011 = ajax) by reflexivity.
  assert (H2 : complete_order (length (years_or_default (years request_2010_2011)))
                 (order world_partial)) by exact order_10.
  assert (H3 : successes (zip (years_or_default (years request_2010_2011))
                 ((tasks (option OscarFilm) validate (client world_partial)
                     (years_or_default (years request_2010_2011))).*1)) ≠ [])
    by (intros H; vm_compute in H; discriminate H).
  assert (H4 : write_text world_partial (_job_file_path "/data" "job-1") = Returned tt)
    by reflexivity.
  pose proof (ajax_job_completes_on_partial_failure (option OscarFilm) validate
                repr_class int_of_digits "/data" world_partial ∅ "job-1" 100
                request_2010_2011 101 105 H1 H2 H3 H4) as T.
  cbn zeta in T. cbn [trigger_oscar_crawl] in T.
  destruct T as (js2 & j & Hrun & Hget & Hs & Hf & Ht & _ & He & _).
  exists js2, j. split; [exact Hrun|]. split; [exact Hget|]. split; [exact Hs|].
  split; [exact Hf|]. split; [exact Ht|exact He].
Defined.

Lemma selenium_job_witness :
  exists js2 j slot' y' e,
    run_demo world_down (<["job-1" := job_submitted]> ∅) "job-1" selenium
      (Some [2010; 2011]) 101 105 = Some (Returned tt, js2) /\
    get_results js2 "job-1" = Some j /\
    [2010; 2011] !! slot' = Some y' /\
    Selenium._fetch_year_selenium (web world_down) slot' y' = Raised e /\
    status j = failed /\
    error j = Some (repr_class e) /\
    films j = None /\
    total_films j = 0.
Proof.
  assert (H1 : complete_order (length [2010; 2011]) (order world_down)) by exact order_10.
  assert (H2 : [2010; 2011] !! 1%nat = Some 2011) by reflexivity.
  assert (H3 : Selenium._fetch_year_selenium (web world_down) 1%nat 2011
               = Raised TimeoutException) by reflexivity.
  exact (selenium_job_fails_on_any_failure (option OscarFilm) validate repr_class
           int_of_digits "/data" world_down ∅ "job-1" 100 [2010; 2011] 101 105
           1%nat 2011 TimeoutException H1 H2 H3).
Defined.

End MoreTrackerRuns.
